(** * examples/nlp/ner.py: fine-tuning a pretrained BERT for NER

    The script is configuration glue over an external framework (nemo,
    nemo_nlp, tensorboardX).  It is embedded here as a program tree over
    the calls it makes into that framework: every external call is an
    event whose answer (a value or an exception) is supplied by the
    environment, and the script's own arithmetic ([int(a / b)],
    [math.ceil(a / 8)]) is modelled on Python's integers and binary64
    floats. *)

From Stdlib Require Import ZArith List String Ascii Bool Lia SpecFloat.
Import ListNotations.
Local Open Scope string_scope.
Local Open Scope list_scope.
Local Open Scope Z_scope.

(** ** Exceptions *)

Inductive exn_class : Type :=
| FileNotFoundError
| ValueError
| ModuleNotFoundError
| ZeroDivisionError
| OverflowError
| OtherException (name : string).

Record exn : Type := Exn { exn_cls : exn_class; exn_msg : string }.

(** [except ModuleNotFoundError]: classes defined by the framework are
    taken not to derive from ModuleNotFoundError. *)
Definition is_ModuleNotFoundError (e : exn) : bool :=
  match exn_cls e with
  | ModuleNotFoundError => true
  | _ => false
  end.

(** ** Python arithmetic used by the script

    [a / b] on two ints is true division: the exact quotient rounded
    once, to nearest with ties to even, into binary64 (53 bits of
    precision, least exponent -1074, overflow from 2^1024). *)
Module PyNum.

Definition prec : Z := 53.
Definition emin : Z := -1074.
Definition emax : Z := 1024.

(** Nearest integer to [num / den], ties to the even one ([0 < den]). *)
Definition round_half_even (num den : Z) : Z :=
  let q := num / den in
  let r := num mod den in
  if 2 * r <? den then q
  else if den <? 2 * r then q + 1
  else if Z.even q then q else q + 1.

(** [n / (d * 2^e)] as a fraction of integers. *)
Definition scaled (n d e : Z) : Z * Z :=
  if 0 <=? e then (n, d * 2 ^ e) else (n * 2 ^ (- e), d).

Definition scaled_floor (n d e : Z) : Z :=
  let (num, den) := scaled n d e in num / den.

(** The exponent of the result's last place, for [0 < n] and [0 < d]:
    the [e] with [2^52 <= n / (d * 2^e) < 2^53], not below [emin]. *)
Definition quotient_exponent (n d : Z) : Z :=
  let e0 := Z.log2 n - Z.log2 d - prec in
  let e1 := if 2 ^ prec <=? scaled_floor n d e0 then e0 + 1 else e0 in
  Z.max e1 emin.

(** Correctly rounded [n / d] for [0 < n], [0 < d], as mantissa and
    exponent; [None] when the rounded value does not fit a float. *)
Definition truediv_pos (n d : Z) : option (Z * Z) :=
  let e := quotient_exponent n d in
  let (num, den) := scaled n d e in
  let m := round_half_even num den in
  if 2 ^ emax <=? m * 2 ^ e then None else Some (m, e).

(** [a / b] for ints [a] and [b]. *)
Definition truediv (a b : Z) : exn + spec_float :=
  if b =? 0 then inl (Exn ZeroDivisionError "division by zero")
  else if a =? 0 then inr (S754_zero (b <? 0))
  else
    let s := xorb (a <? 0) (b <? 0) in
    match truediv_pos (Z.abs a) (Z.abs b) with
    | None =>
        inl (Exn OverflowError "integer division result too large for a float")
    | Some (m, e) =>
        inr (if m =? 0 then S754_zero s else S754_finite s (Z.to_pos m) e)
    end.

(** The value [m * 2^e], for [0 <= m], cut to an integer. *)
Definition cut (m e : Z) : Z :=
  if 0 <=? e then m * 2 ^ e else m / 2 ^ (- e).

(** Magnitude of a finite float cut to an integer, towards zero. *)
Definition trunc_mag (m : positive) (e : Z) : Z := cut (Z.pos m) e.

(** Magnitude of a finite float rounded up to an integer. *)
Definition ceil_mag (m : positive) (e : Z) : Z :=
  if 0 <=? e then Z.pos m * 2 ^ e else - ((- Z.pos m) / 2 ^ (- e)).

(** [int(x)] for a float [x]. *)
Definition int_of_float (x : spec_float) : exn + Z :=
  match x with
  | S754_zero _ => inr 0
  | S754_finite s m e => inr (if s then - trunc_mag m e else trunc_mag m e)
  | S754_infinity _ =>
      inl (Exn OverflowError "cannot convert float infinity to integer")
  | S754_nan => inl (Exn ValueError "cannot convert float NaN to integer")
  end.

(** [math.ceil(x)] for a float [x]. *)
Definition ceil (x : spec_float) : exn + Z :=
  match x with
  | S754_zero _ => inr 0
  | S754_finite s m e => inr (if s then - trunc_mag m e else ceil_mag m e)
  | S754_infinity _ =>
      inl (Exn OverflowError "cannot convert float infinity to integer")
  | S754_nan => inl (Exn ValueError "cannot convert float NaN to integer")
  end.

End PyNum.

(** The exceptions of the script's arithmetic. *)
Definition arithmetic_error (e : exn) : Prop :=
  exn_cls e = ZeroDivisionError \/ exn_cls e = OverflowError.

(** Sequencing of computations that may raise. *)
Definition ebind {A B : Type} (c : exn + A) (f : A -> exn + B) : exn + B :=
  match c with
  | inl e => inl e
  | inr a => f a
  end.

(** ner.py:157, [int(train_data_size / (args.batch_size * args.num_gpus))]. *)
Definition steps_per_epoch (train_data_size batch_size num_gpus : Z)
  : exn + Z :=
  ebind (PyNum.truediv train_data_size (batch_size * num_gpus))
        PyNum.int_of_float.

(** ner.py:87, [8 * math.ceil(tokenizer.vocab_size / 8)]. *)
Definition vocab_size (tokenizer_vocab_size : Z) : exn + Z :=
  ebind (ebind (PyNum.truediv tokenizer_vocab_size 8) PyNum.ceil)
        (fun c => inr (8 * c)).


(** ** Command line (ner.py:17-39) *)

Inductive arg_type : Type := type_int | type_float | type_str.

Inductive arg_action : Type :=
| store (type : arg_type)
| store_true.

Inductive arg_default : Type :=
| default_None
| default_False
| default_int (z : Z)
| default_float (literal : string)
| default_str (s : string).

Record Argument : Type := add_argument
  { arg_flag : string; arg_default_value : arg_default; arg_act : arg_action }.

Definition parser : list Argument :=
  [ add_argument "--local_rank" default_None (store type_int);
    add_argument "--batch_size" (default_int 32) (store type_int);
    add_argument "--num_gpus" (default_int 1) (store type_int);
    add_argument "--num_epochs" (default_int 1) (store type_int);
    add_argument "--lr_warmup_proportion" (default_float "0.1")
                 (store type_float);
    add_argument "--lr" (default_float "5e-5") (store type_float);
    add_argument "--weight_decay" (default_int 0) (store type_float);
    add_argument "--optimizer_kind" (default_str "adam") (store type_str);
    add_argument "--mixed_precision" default_False store_true;
    add_argument "--lr_policy" (default_str "lr_warmup") (store type_str);
    add_argument "--pretrained_bert_model" (default_str "bert-base-cased")
                 (store type_str);
    add_argument "--data_dir" (default_str "./conll2003") (store type_str);
    add_argument "--classification_dropout" (default_float "0.1")
                 (store type_float);
    add_argument "--max_seq_length" (default_int 128) (store type_int);
    add_argument "--output_filename" (default_str "output.txt")
                 (store type_str);
    add_argument "--tensorboard_filename" (default_str "ner_tensorboard")
                 (store type_str);
    add_argument "--bert_checkpoint" default_None (store type_str);
    add_argument "--bert_config" default_None (store type_str) ].

(** The namespace returned by [parser.parse_args()].  A flag whose
    default is None holds [None] exactly when it was not supplied. *)
Record Args : Type := mkArgs
  { local_rank : option Z;
    batch_size : Z;
    num_gpus : Z;
    num_epochs : Z;
    lr_warmup_proportion : spec_float;
    lr : spec_float;
    weight_decay : spec_float;
    optimizer_kind : string;
    mixed_precision : bool;
    lr_policy : string;
    pretrained_bert_model : string;
    data_dir : string;
    classification_dropout : spec_float;
    max_seq_length : Z;
    output_filename : string;
    tensorboard_filename : string;
    bert_checkpoint : option string;
    bert_config : option string }.

(** ** Objects of the external framework

    Opaque to the script: an identity, and the attributes the script
    reads from them. *)

Inductive DeviceType : Type := GPU | CPU | AllGpu.
Inductive Optimization : Type := mxprO0 | mxprO1 | mxprO2 | mxprO3.
Inductive Backend : Type := PyTorch.

Record SummaryWriterObj : Type := { writer_id : nat }.
Record Factory : Type := { factory_id : nat }.
Record Tokenizer : Type :=
  { tokenizer_id : nat; tokenizer_vocab_size : Z }.
Record BertModel : Type := { bert_id : nat; bert_config_hidden_size : Z }.
Record TagIds : Type := { tag_ids_id : nat; tag_ids_len : Z }.
Record DataLayer : Type := { layer_id : nat; dataset_tag_ids : TagIds }.
Record LossModule : Type := { loss_id : nat }.
Record Tensor : Type := { tensor_id : nat }.
Record Callback : Type := { callback_id : nat }.
Record LrPolicy : Type := { policy_id : nat }.

(** Keyword arguments of [nemo_nlp.huggingface.BERT]. *)
Inductive BertSource : Type :=
| pretrained_model_name (name : string)
| config_filename (path : option string).

(** The lambdas handed to the callbacks (ner.py:152-153, 163-166). *)
Inductive Lambda : Type :=
| print_loss
| loss_tb_values
| eval_iter (eval_data_layer : DataLayer) (tag_ids : TagIds)
| eval_epochs_done (tag_ids : TagIds) (output_filename : string).

Inductive printable : Type :=
| PStr (s : string)
| PInt (z : Z).

(** ** Calls out of the script, indexed by the type of their result

    A method that mutates its object ([add_special_tokens],
    [restore_from]) answers with the object's state after the call. *)

Inductive Call : Type -> Type :=
| parse_args (p : list Argument) : Call Args
| os_path_isfile (path : string) : Call bool
| import_tensorboardX : Call unit
| SummaryWriter (logdir : string) : Call SummaryWriterObj
| print (items : list printable) : Call unit
| NeuralModuleFactory (backend : Backend) (local_rank : option Z)
    (optimization_level : Optimization) (placement : DeviceType)
  : Call Factory
| NemoBertTokenizer (pretrained_model : string) : Call Tokenizer
| SentencePieceTokenizer (model_path : string) : Call Tokenizer
| add_special_tokens (tokenizer : Tokenizer) (tokens : list string)
  : Call Tokenizer
| BERT (source : BertSource) (factory : Factory) : Call BertModel
| restore_from (model : BertModel) (path : string) : Call BertModel
| BertNERDataLayer (tokenizer : Tokenizer) (path_to_data : string)
    (max_seq_length : Z) (is_training : bool) (batch_size : Z)
    (shuffle : bool) (num_workers : Z) (local_rank : option Z)
    (factory : Factory)
  : Call DataLayer
| TokenClassificationLoss (d_model num_labels : Z) (dropout : spec_float)
    (factory : Factory)
  : Call LossModule
| call_data_layer (layer : DataLayer)
  : Call (Tensor * Tensor * Tensor * Tensor * Tensor)
| call_bert (model : BertModel) (input_ids token_type_ids attention_mask : Tensor)
  : Call Tensor
| call_loss (loss : LossModule) (hidden_states labels input_mask : Tensor)
  : Call (Tensor * Tensor)
| SimpleLossLoggerCallback (tensors : list Tensor)
    (print_func get_tb_values : Lambda) (tb_writer : option SummaryWriterObj)
  : Call Callback
| len_data_layer (layer : DataLayer) : Call Z
| EvaluatorCallback (eval_tensors : list Tensor)
    (user_iter_callback user_epochs_done_callback : Lambda)
    (tb_writer : option SummaryWriterObj) (eval_step : Z)
  : Call Callback
| WarmupAnnealing (total_steps : Z) (warmup_ratio : spec_float)
  : Call LrPolicy
| SquareAnnealing (total_steps : Z) : Call LrPolicy
| CosineAnnealing (total_steps : Z) : Call LrPolicy
| train (factory : Factory) (tensors_to_optimize : list Tensor)
    (callbacks : list Callback) (lr_policy : LrPolicy) (optimizer : string)
    (num_epochs : Z) (lr : spec_float)
  : Call unit.

(** ** Programs *)

(** Where an exception comes from: a [raise] statement of the script, a
    built-in operator of the script's own arithmetic, or a call. *)
Inductive origin : Type := Script | Operator | External.

Inductive prog (R : Type) : Type :=
| Ret (r : R)
| Raise (o : origin) (e : exn)
| Vis (X : Type) (c : Call X) (k : exn + X -> prog R).

Arguments Ret {R} r.
Arguments Raise {R} o e.
Arguments Vis {R X} c k.

Fixpoint bind {A B : Type} (p : prog A) (f : A -> prog B) : prog B :=
  match p with
  | Ret a => f a
  | Raise o e => Raise o e
  | Vis c k => Vis c (fun a => bind (k a) f)
  end.

(** A call whose exception is not handled at the call site. *)
Definition call {X : Type} (c : Call X) : prog X :=
  Vis c (fun a => match a with
                  | inl e => Raise External e
                  | inr x => Ret x
                  end).

Definition lift {A : Type} (c : exn + A) : prog A :=
  match c with
  | inl e => Raise Operator e
  | inr a => Ret a
  end.

(** [try: body  except <catches>: handler] *)
Fixpoint try_except {R : Type} (body : prog R) (catches : exn -> bool)
  (handler : prog R) : prog R :=
  match body with
  | Ret r => Ret r
  | Raise o e => if catches e then handler else Raise o e
  | Vis c k => Vis c (fun a => try_except (k a) catches handler)
  end.

Declare Scope prog_scope.
Delimit Scope prog_scope with prog.
Notation "x <- c ;; k" := (bind c (fun x => k))
  (at level 61, c at next level, right associativity) : prog_scope.
Notation "' pat <- c ;; k" := (bind c (fun x => match x with pat => k end))
  (at level 61, pat pattern, c at next level, right associativity)
  : prog_scope.
Notation "c ;; k" := (bind c (fun _ => k))
  (at level 61, right associativity) : prog_scope.

(** ** Running a program against an environment *)

Inductive entry : Type :=
| Entry (X : Type) (c : Call X) (answer : exn + X).

Arguments Entry {X} c answer.

Definition trace : Type := list entry.

(** The environment answers each call, knowing what happened before. *)
Definition world : Type := forall X : Type, trace -> Call X -> exn + X.

Inductive outcome (R : Type) : Type :=
| Returned (r : R)
| Raised (o : origin) (e : exn).

Arguments Returned {R} r.
Arguments Raised {R} o e.

Fixpoint run_from {R : Type} (w : world) (p : prog R) (past : trace)
  : trace * outcome R :=
  match p with
  | Ret r => (past, Returned r)
  | Raise o e => (past, Raised o e)
  | Vis c k =>
      let a := w _ past c in
      run_from w (k a) (past ++ [Entry c a])
  end.

Definition run {R : Type} (w : world) (p : prog R) : trace * outcome R :=
  run_from w p [].

(** ** The script *)

(** [os.path.join(a, b)] of posixpath, for two components. *)
Fixpoint ends_with_sep (s : string) : bool :=
  match s with
  | EmptyString => false
  | String c EmptyString => Ascii.eqb c "/"
  | String _ rest => ends_with_sep rest
  end.

Definition os_path_join (a b : string) : string :=
  if String.prefix "/" b then b
  else if (a =? "")%string || ends_with_sep a then (a ++ b)%string
  else (a ++ "/" ++ b)%string.

(** ner.py:41 *)
Definition data_file (args : Args) : string :=
  os_path_join (data_dir args) "train.txt".

(** ner.py:43-46 *)
Definition dataset_not_found : exn :=
  Exn FileNotFoundError
      ("CoNLL-2003 dataset not found. Dataset can be "
       ++ "obtained at https://github.com/kyzhouhzau/BERT"
       ++ "-NER/tree/master/data and should be put in a "
       ++ "folder at the same level as ner.py.")%string.

(** ner.py:178 *)
Definition invalid_lr_policy : exn :=
  Exn ValueError "Invalid lr_policy, must be lr_warmup or lr_poly".

(** ner.py:55-58 *)
Definition device (args : Args) : DeviceType :=
  match local_rank args with
  | Some _ => AllGpu
  | None => GPU
  end.

(** ner.py:60-63 *)
Definition optimization_level (args : Args) : Optimization :=
  if mixed_precision args then mxprO1 else mxprO0.

(** What lines 41-85 leave behind for the rest of the script. *)
Record Setup : Type := mkSetup
  { tb_writer : option SummaryWriterObj;
    neural_factory : Factory;
    tokenizer : Tokenizer;
    bert_model : BertModel }.

Local Open Scope prog_scope.

(** ner.py:41-85: dataset check, tensorboard writer, factory, tokenizer
    and BERT encoder. *)
Definition setup (args : Args) : prog Setup :=
  found <- call (os_path_isfile (data_file args)) ;;
  if negb found then Raise Script dataset_not_found
  else
    tb_writer <-
      try_except
        (call import_tensorboardX ;;
         w <- call (SummaryWriter (tensorboard_filename args)) ;;
         Ret (Some w))
        is_ModuleNotFoundError
        (call (print [PStr "Tensorboard is not available."]) ;;
         Ret None) ;;
    neural_factory <-
      call (NeuralModuleFactory PyTorch (local_rank args)
              (optimization_level args) (device args)) ;;
    match bert_checkpoint args with
    | None =>
        tokenizer <- call (NemoBertTokenizer (pretrained_bert_model args)) ;;
        bert_model <-
          call (BERT (pretrained_model_name (pretrained_bert_model args))
                  neural_factory) ;;
        Ret (mkSetup tb_writer neural_factory tokenizer bert_model)
    | Some checkpoint =>
        tokenizer <- call (SentencePieceTokenizer "tokenizer.model") ;;
        tokenizer <-
          call (add_special_tokens tokenizer ["[MASK]"; "[CLS]"; "[SEP]"]) ;;
        bert_model <-
          call (BERT (config_filename (bert_config args)) neural_factory) ;;
        bert_model <- call (restore_from bert_model checkpoint) ;;
        Ret (mkSetup tb_writer neural_factory tokenizer bert_model)
    end.

(** ner.py:170-178 *)
Definition lr_policy_func (args : Args) (steps_per_epoch : Z)
  : prog LrPolicy :=
  if (lr_policy args =? "lr_warmup")%string then
    call (WarmupAnnealing (num_epochs args * steps_per_epoch)
            (lr_warmup_proportion args))
  else if (lr_policy args =? "lr_poly")%string then
    call (SquareAnnealing (num_epochs args * steps_per_epoch))
  else if (lr_policy args =? "lr_cosine")%string then
    call (CosineAnnealing (num_epochs args * steps_per_epoch))
  else Raise Script invalid_lr_policy.

(** ner.py:89-188: the two pipelines, the callbacks, the schedule and
    the training action. *)
Definition pipelines (args : Args) (s : Setup) : prog unit :=
  call (print [PStr "Loading training data..."]) ;;
  train_data_layer <-
    call (BertNERDataLayer (tokenizer s)
            (os_path_join (data_dir args) "train.txt")
            (max_seq_length args) true (batch_size args) false 0
            (local_rank args) (neural_factory s)) ;;
  let tag_ids := dataset_tag_ids train_data_layer in
  ner_loss <-
    call (TokenClassificationLoss (bert_config_hidden_size (bert_model s))
            (tag_ids_len tag_ids) (classification_dropout args)
            (neural_factory s)) ;;
  '(input_ids, input_type_ids, input_mask, labels, _) <-
    call (call_data_layer train_data_layer) ;;
  hidden_states <-
    call (call_bert (bert_model s) input_ids input_type_ids input_mask) ;;
  '(train_loss, train_logits) <-
    call (call_loss ner_loss hidden_states labels input_mask) ;;
  call (print [PStr "Loading eval data..."]) ;;
  eval_data_layer <-
    call (BertNERDataLayer (tokenizer s)
            (os_path_join (data_dir args) "dev.txt")
            (max_seq_length args) true (batch_size args) false 0
            (local_rank args) (neural_factory s)) ;;
  '(input_ids, input_type_ids, eval_input_mask, eval_labels, eval_seq_ids) <-
    call (call_data_layer eval_data_layer) ;;
  hidden_states <-
    call (call_bert (bert_model s) input_ids input_type_ids eval_input_mask) ;;
  '(eval_loss, eval_logits) <-
    call (call_loss ner_loss hidden_states eval_labels eval_input_mask) ;;
  callback_train <-
    call (SimpleLossLoggerCallback [train_loss] print_loss loss_tb_values
            (tb_writer s)) ;;
  train_data_size <- call (len_data_layer train_data_layer) ;;
  steps_per_epoch <-
    lift (steps_per_epoch train_data_size (batch_size args) (num_gpus args)) ;;
  call (print [PStr "steps_per_epoch ="; PInt steps_per_epoch]) ;;
  callback_eval <-
    call (EvaluatorCallback [eval_logits; eval_seq_ids]
            (eval_iter eval_data_layer tag_ids)
            (eval_epochs_done tag_ids (output_filename args))
            (tb_writer s) steps_per_epoch) ;;
  lr_policy_func <- lr_policy_func args steps_per_epoch ;;
  call (train (neural_factory s) [train_loss] [callback_train; callback_eval]
          lr_policy_func (optimizer_kind args) (num_epochs args) (lr args)).

(** ner.py:41-188 *)
Definition script (args : Args) : prog unit :=
  s <- setup args ;;
  vocab_size <- lift (vocab_size (tokenizer_vocab_size (tokenizer s))) ;;
  pipelines args s.

(** The whole of ner.py. *)
Definition main : prog unit :=
  args <- call (parse_args parser) ;;
  script args.

(** ner.py with line 87 taken out. *)
Definition script_without_vocab_size (args : Args) : prog unit :=
  s <- setup args ;;
  pipelines args s.

Definition main_without_vocab_size : prog unit :=
  args <- call (parse_args parser) ;;
  script_without_vocab_size args.

(** ** Reading traces *)

(** The stages of the script's overview. *)
Inductive stage : Type :=
| StParse
| StValidate
| StModel
| StBuild
| StConnect
| StCallbacks
| StSchedule
| StTrain.

Definition stage_index (s : stage) : nat :=
  match s with
  | StParse => 1
  | StValidate => 2
  | StModel => 3
  | StBuild => 4
  | StConnect => 5
  | StCallbacks => 6
  | StSchedule => 7
  | StTrain => 8
  end%nat.

(** The stage a call belongs to; printing, the tensorboard writer, the
    factory and [len] belong to none. *)
Definition stage_of {X : Type} (c : Call X) : option stage :=
  match c with
  | parse_args _ => Some StParse
  | os_path_isfile _ => Some StValidate
  | NemoBertTokenizer _ | SentencePieceTokenizer _ | add_special_tokens _ _
  | BERT _ _ | restore_from _ _ => Some StModel
  | BertNERDataLayer _ _ _ _ _ _ _ _ _
  | TokenClassificationLoss _ _ _ _ => Some StBuild
  | call_data_layer _ | call_bert _ _ _ _ | call_loss _ _ _ _ =>
      Some StConnect
  | SimpleLossLoggerCallback _ _ _ _ | EvaluatorCallback _ _ _ _ _ =>
      Some StCallbacks
  | WarmupAnnealing _ _ | SquareAnnealing _ | CosineAnnealing _ =>
      Some StSchedule
  | train _ _ _ _ _ _ _ => Some StTrain
  | _ => None
  end.

Definition entry_stage (en : entry) : option stage :=
  match en with
  | Entry c _ => stage_of c
  end.

Fixpoint stages (tr : trace) : list stage :=
  match tr with
  | [] => []
  | en :: rest =>
      match entry_stage en with
      | Some s => s :: stages rest
      | None => stages rest
      end
  end.

Fixpoint nondecreasing (l : list nat) : bool :=
  match l with
  | a :: (b :: _) as rest => (a <=? b)%nat && nondecreasing rest
  | _ => true
  end.

(** A list of stages with runs of one stage collapsed. *)
Fixpoint phases (l : list stage) : list stage :=
  match l with
  | a :: (b :: _) as rest =>
      if (stage_index a =? stage_index b)%nat then phases rest
      else a :: phases rest
  | _ => l
  end.

Definition is_train (en : entry) : bool :=
  match entry_stage en with
  | Some StTrain => true
  | _ => false
  end.

Definition train_calls (tr : trace) : nat := List.length (filter is_train tr).

Definition ends_with_train (tr : trace) : bool :=
  match rev tr with
  | en :: _ => is_train en
  | [] => false
  end.

(** The exception a call answered with, if it did. *)
Definition failure (en : entry) : option exn :=
  match en with
  | Entry _ (inl e) => Some e
  | Entry _ (inr _) => None
  end.

(** The calls of the [try] block at ner.py:48-50. *)
Definition in_tensorboard_try (en : entry) : bool :=
  match en with
  | Entry import_tensorboardX _ => true
  | Entry (SummaryWriter _) _ => true
  | _ => false
  end.

(** The paths the data layers were built on, in order. *)
Fixpoint data_layer_paths (tr : trace) : list string :=
  match tr with
  | [] => []
  | Entry (BertNERDataLayer _ path _ _ _ _ _ _ _) _ :: rest =>
      path :: data_layer_paths rest
  | _ :: rest => data_layer_paths rest
  end.

(** ** Environments to run the script in *)

Record Scenario : Type := mkScenario
  { given_args : Args;
    train_file_exists : bool;
    tensorboard_installed : bool;
    vocabulary : Z;
    train_set_size : Z }.

(** An environment in which every call succeeds, apart from what the
    scenario withholds; objects are numbered by the time of their
    creation. *)
Definition scenario_world (sc : Scenario) : world :=
  fun X past c =>
    let id := List.length past in
    match c in Call X return exn + X with
    | parse_args _ => inr (given_args sc)
    | os_path_isfile _ => inr (train_file_exists sc)
    | import_tensorboardX =>
        if tensorboard_installed sc then inr tt
        else inl (Exn ModuleNotFoundError "No module named 'tensorboardX'")
    | SummaryWriter _ => inr {| writer_id := id |}
    | print _ => inr tt
    | NeuralModuleFactory _ _ _ _ => inr {| factory_id := id |}
    | NemoBertTokenizer _ | SentencePieceTokenizer _ =>
        inr {| tokenizer_id := id; tokenizer_vocab_size := vocabulary sc |}
    | add_special_tokens t _ =>
        inr {| tokenizer_id := tokenizer_id t;
               tokenizer_vocab_size := tokenizer_vocab_size t + 3 |}
    | BERT _ _ => inr {| bert_id := id; bert_config_hidden_size := 768 |}
    | restore_from m _ => inr m
    | BertNERDataLayer _ _ _ _ _ _ _ _ _ =>
        inr {| layer_id := id;
               dataset_tag_ids := {| tag_ids_id := id; tag_ids_len := 9 |} |}
    | TokenClassificationLoss _ _ _ _ => inr {| loss_id := id |}
    | call_data_layer _ =>
        let t := fun i => {| tensor_id := 10 * id + i |} in
        inr (t 0%nat, t 1%nat, t 2%nat, t 3%nat, t 4%nat)
    | call_bert _ _ _ _ => inr {| tensor_id := 10 * id |}
    | call_loss _ _ _ _ =>
        inr ({| tensor_id := 10 * id |}, {| tensor_id := 10 * id + 1 |})
    | SimpleLossLoggerCallback _ _ _ _ | EvaluatorCallback _ _ _ _ _ =>
        inr {| callback_id := id |}
    | len_data_layer _ => inr (train_set_size sc)
    | WarmupAnnealing _ _ | SquareAnnealing _ | CosineAnnealing _ =>
        inr {| policy_id := id |}
    | train _ _ _ _ _ _ _ => inr tt
    end%nat.

(** The command line [ner.py] with every flag at its default; the
    float defaults are the binary64 values of 0.1, 5e-5 and 0. *)
Definition default_args : Args :=
  {| local_rank := None;
     batch_size := 32;
     num_gpus := 1;
     num_epochs := 1;
     lr_warmup_proportion := S754_finite false 7205759403792794 (-56);
     lr := S754_finite false 7378697629483821 (-67);
     weight_decay := S754_zero false;
     optimizer_kind := "adam";
     mixed_precision := false;
     lr_policy := "lr_warmup";
     pretrained_bert_model := "bert-base-cased";
     data_dir := "./conll2003";
     classification_dropout := S754_finite false 7205759403792794 (-56);
     max_seq_length := 128;
     output_filename := "output.txt";
     tensorboard_filename := "ner_tensorboard";
     bert_checkpoint := None;
     bert_config := None |}.

Definition default_run : Scenario :=
  {| given_args := default_args;
     train_file_exists := true;
     tensorboard_installed := true;
     vocabulary := 28996;
     train_set_size := 14041 |}.


(** ** Observations on traces *)

(** The values of [--lr_policy] the script accepts (ner.py:170-176). *)
Definition lr_policies : list string := ["lr_warmup"; "lr_poly"; "lr_cosine"].

(** The evaluation callback was constructed: the last step before the
    schedule is selected. *)
Definition evaluator_registered (tr : trace) : bool :=
  existsb (fun en => match en with
                     | Entry (EvaluatorCallback _ _ _ _ _) (inr _) => true
                     | _ => false
                     end) tr.

(** Every call that failed and was not caught ended the run with its
    exception. *)
Fixpoint unhandled_failures_end_run (caught : entry -> exn -> bool)
  (tr : trace) (out : outcome unit) : Prop :=
  match tr with
  | [] => True
  | en :: rest =>
      match failure en with
      | None => unhandled_failures_end_run caught rest out
      | Some e =>
          if caught en e then unhandled_failures_end_run caught rest out
          else rest = [] /\ out = Raised External e
      end
  end.

(** Nothing is caught. *)
Definition caught_nowhere (en : entry) (e : exn) : bool := false.

(** ner.py:48-53 *)
Definition caught_by_script (en : entry) (e : exn) : bool :=
  in_tensorboard_try en && is_ModuleNotFoundError e.

Definition last_failure (tr : trace) : option exn :=
  match rev tr with
  | en :: _ => failure en
  | [] => None
  end.

(** What a call to [print] was given. *)
Definition printed (en : entry) : option (list printable) :=
  match en with
  | Entry (print items) _ => Some items
  | _ => None
  end.

(** The [tb_writer] the callbacks were constructed with. *)
Definition callback_writers (tr : trace) : list (option SummaryWriterObj) :=
  flat_map (fun en => match en with
                      | Entry (SimpleLossLoggerCallback _ _ _ writer) _ =>
                          [writer]
                      | Entry (EvaluatorCallback _ _ _ writer _) _ => [writer]
                      | _ => []
                      end) tr.

(** ner.py:51-53: a caught failure is followed at once by the message,
    and the callbacks get no writer. *)
Fixpoint caught_failures_handled (tr : trace) : Prop :=
  match tr with
  | [] => True
  | en :: rest =>
      match failure en with
      | Some e =>
          if caught_by_script en e then
            map printed (firstn 1 rest)
            = [Some [PStr "Tensorboard is not available."]]
            /\ Forall (eq None) (callback_writers rest)
          else True
      | None => True
      end
      /\ caught_failures_handled rest
  end.

Definition no_failure (tr : trace) : bool :=
  forallb (fun en => match failure en with
                     | None => true
                     | Some _ => false
                     end) tr.

Definition os_path_isfile_answers (tr : trace) : list bool :=
  flat_map (fun en => match en with
                      | Entry (os_path_isfile _) (inr b) => [b]
                      | _ => []
                      end) tr.

(** The schedule constructors, as called. *)
Inductive Schedule : Type :=
| Warmup (total_steps : Z) (warmup_ratio : spec_float)
| Square (total_steps : Z)
| Cosine (total_steps : Z).

Definition schedules (tr : trace) : list Schedule :=
  flat_map (fun en => match en with
                      | Entry (WarmupAnnealing total ratio) _ =>
                          [Warmup total ratio]
                      | Entry (SquareAnnealing total) _ => [Square total]
                      | Entry (CosineAnnealing total) _ => [Cosine total]
                      | _ => []
                      end) tr.

(** What [len(train_data_layer)] answered. *)
Definition train_data_sizes (tr : trace) : list Z :=
  flat_map (fun en => match en with
                      | Entry (len_data_layer _) (inr n) => [n]
                      | _ => []
                      end) tr.

(** The schedules constructed, and the schedules handed to [train]. *)
Definition built_policies (tr : trace) : list LrPolicy :=
  flat_map (fun en => match en with
                      | Entry (WarmupAnnealing _ _) (inr p) => [p]
                      | Entry (SquareAnnealing _) (inr p) => [p]
                      | Entry (CosineAnnealing _) (inr p) => [p]
                      | _ => []
                      end) tr.

Definition trained_policies (tr : trace) : list LrPolicy :=
  flat_map (fun en => match en with
                      | Entry (train _ _ _ p _ _ _) _ => [p]
                      | _ => []
                      end) tr.


(** The calls that construct the tokenizer and the encoder. *)
Definition model_entries (tr : trace) : trace :=
  filter (fun en => match entry_stage en with
                    | Some StModel => true
                    | _ => false
                    end) tr.

(** Each tokenizer or encoder call is the one of the branch that
    [--bert_checkpoint] selects (ner.py:72-85). *)
Definition model_call_as_configured (args : Args) (en : entry) : Prop :=
  match en with
  | Entry (NemoBertTokenizer name) _ =>
      bert_checkpoint args = None /\ name = pretrained_bert_model args
  | Entry (SentencePieceTokenizer path) _ =>
      bert_checkpoint args <> None /\ path = "tokenizer.model"
  | Entry (add_special_tokens _ tokens) _ =>
      bert_checkpoint args <> None /\ tokens = ["[MASK]"; "[CLS]"; "[SEP]"]
  | Entry (BERT source _) _ =>
      source = match bert_checkpoint args with
               | None => pretrained_model_name (pretrained_bert_model args)
               | Some _ => config_filename (bert_config args)
               end
  | Entry (restore_from _ path) _ => bert_checkpoint args = Some path
  | _ => True
  end.

(** The tokenizer states the environment handed out. *)
Definition tokenizers (tr : trace) : list Tokenizer :=
  flat_map (fun en => match en with
                      | Entry (NemoBertTokenizer _) (inr t) => [t]
                      | Entry (SentencePieceTokenizer _) (inr t) => [t]
                      | Entry (add_special_tokens _ _) (inr t) => [t]
                      | _ => []
                      end) tr.

Definition with_pretrained_bert_model (name : string) (args : Args) : Args :=
  {| local_rank := local_rank args;
     batch_size := batch_size args;
     num_gpus := num_gpus args;
     num_epochs := num_epochs args;
     lr_warmup_proportion := lr_warmup_proportion args;
     lr := lr args;
     weight_decay := weight_decay args;
     optimizer_kind := optimizer_kind args;
     mixed_precision := mixed_precision args;
     lr_policy := lr_policy args;
     pretrained_bert_model := name;
     data_dir := data_dir args;
     classification_dropout := classification_dropout args;
     max_seq_length := max_seq_length args;
     output_filename := output_filename args;
     tensorboard_filename := tensorboard_filename args;
     bert_checkpoint := bert_checkpoint args;
     bert_config := bert_config args |}.

Definition with_lr_policy (name : string) (args : Args) : Args :=
  {| local_rank := local_rank args;
     batch_size := batch_size args;
     num_gpus := num_gpus args;
     num_epochs := num_epochs args;
     lr_warmup_proportion := lr_warmup_proportion args;
     lr := lr args;
     weight_decay := weight_decay args;
     optimizer_kind := optimizer_kind args;
     mixed_precision := mixed_precision args;
     lr_policy := name;
     pretrained_bert_model := pretrained_bert_model args;
     data_dir := data_dir args;
     classification_dropout := classification_dropout args;
     max_seq_length := max_seq_length args;
     output_filename := output_filename args;
     tensorboard_filename := tensorboard_filename args;
     bert_checkpoint := bert_checkpoint args;
     bert_config := bert_config args |}.

Definition with_bert_checkpoint (checkpoint config : string) (args : Args)
  : Args :=
  {| local_rank := local_rank args;
     batch_size := batch_size args;
     num_gpus := num_gpus args;
     num_epochs := num_epochs args;
     lr_warmup_proportion := lr_warmup_proportion args;
     lr := lr args;
     weight_decay := weight_decay args;
     optimizer_kind := optimizer_kind args;
     mixed_precision := mixed_precision args;
     lr_policy := lr_policy args;
     pretrained_bert_model := pretrained_bert_model args;
     data_dir := data_dir args;
     classification_dropout := classification_dropout args;
     max_seq_length := max_seq_length args;
     output_filename := output_filename args;
     tensorboard_filename := tensorboard_filename args;
     bert_checkpoint := Some checkpoint;
     bert_config := Some config |}.

(** More scenarios: no training file (and a misspelt policy), no
    tensorboardX, a misspelt policy, a checkpoint. *)
Definition no_train_file : Scenario :=
  {| given_args := with_lr_policy "lr_linear" default_args;
     train_file_exists := false;
     tensorboard_installed := true;
     vocabulary := 28996;
     train_set_size := 14041 |}.

Definition no_tensorboard : Scenario :=
  {| given_args := default_args;
     train_file_exists := true;
     tensorboard_installed := false;
     vocabulary := 28996;
     train_set_size := 14041 |}.

Definition misspelt_policy : Scenario :=
  {| given_args := with_lr_policy "lr_linear" default_args;
     train_file_exists := true;
     tensorboard_installed := true;
     vocabulary := 28996;
     train_set_size := 14041 |}.

Definition from_checkpoint : Scenario :=
  {| given_args := with_bert_checkpoint "bert.pt" "bert_config.json"
                     default_args;
     train_file_exists := true;
     tensorboard_installed := true;
     vocabulary := 32000;
     train_set_size := 14041 |}.

(** ** Further observations on traces *)

(** The arguments of the calls, in the order of their occurrence. *)
Definition isfile_paths (tr : trace) : list string :=
  flat_map (fun en => match en with
                      | Entry (os_path_isfile path) _ => [path]
                      | _ => []
                      end) tr.

Definition factory_calls (tr : trace)
  : list (Backend * option Z * Optimization * DeviceType) :=
  flat_map (fun en => match en with
                      | Entry (NeuralModuleFactory b r o p) _ => [(b, r, o, p)]
                      | _ => []
                      end) tr.

Record DataLayerCall : Type := mkDataLayerCall
  { dlc_tokenizer : Tokenizer;
    dlc_path_to_data : string;
    dlc_max_seq_length : Z;
    dlc_is_training : bool;
    dlc_batch_size : Z;
    dlc_shuffle : bool;
    dlc_num_workers : Z;
    dlc_local_rank : option Z;
    dlc_factory : Factory }.

Definition data_layer_calls (tr : trace) : list DataLayerCall :=
  flat_map (fun en => match en with
                      | Entry (BertNERDataLayer t p m i b s n r f) _ =>
                          [mkDataLayerCall t p m i b s n r f]
                      | _ => []
                      end) tr.

Definition loss_calls (tr : trace) : list (Z * Z * spec_float * Factory) :=
  flat_map (fun en => match en with
                      | Entry (TokenClassificationLoss d n p f) _ =>
                          [(d, n, p, f)]
                      | _ => []
                      end) tr.

Definition writer_logdirs (tr : trace) : list string :=
  flat_map (fun en => match en with
                      | Entry (SummaryWriter logdir) _ => [logdir]
                      | _ => []
                      end) tr.

Definition prints (tr : trace) : list (list printable) :=
  flat_map (fun en => match en with
                      | Entry (print items) _ => [items]
                      | _ => []
                      end) tr.

(** The objects the environment handed out, in the order of their
    creation. *)
Definition summary_writers (tr : trace) : list SummaryWriterObj :=
  flat_map (fun en => match en with
                      | Entry (SummaryWriter _) (inr wr) => [wr]
                      | _ => []
                      end) tr.

Definition factories (tr : trace) : list Factory :=
  flat_map (fun en => match en with
                      | Entry (NeuralModuleFactory _ _ _ _) (inr f) => [f]
                      | _ => []
                      end) tr.

(** The states of the encoder: as built, and as restored. *)
Definition encoders (tr : trace) : list BertModel :=
  flat_map (fun en => match en with
                      | Entry (BERT _ _) (inr m) => [m]
                      | Entry (restore_from _ _) (inr m) => [m]
                      | _ => []
                      end) tr.

Definition data_layers (tr : trace) : list DataLayer :=
  flat_map (fun en => match en with
                      | Entry (BertNERDataLayer _ _ _ _ _ _ _ _ _) (inr l) =>
                          [l]
                      | _ => []
                      end) tr.

Definition losses (tr : trace) : list LossModule :=
  flat_map (fun en => match en with
                      | Entry (TokenClassificationLoss _ _ _ _) (inr l) => [l]
                      | _ => []
                      end) tr.

Definition layer_outputs (tr : trace)
  : list (Tensor * Tensor * Tensor * Tensor * Tensor) :=
  flat_map (fun en => match en with
                      | Entry (call_data_layer _) (inr o) => [o]
                      | _ => []
                      end) tr.

Definition loss_outputs (tr : trace) : list (Tensor * Tensor) :=
  flat_map (fun en => match en with
                      | Entry (call_loss _ _ _ _) (inr o) => [o]
                      | _ => []
                      end) tr.

Definition callbacks (tr : trace) : list Callback :=
  flat_map (fun en => match en with
                      | Entry (SimpleLossLoggerCallback _ _ _ _) (inr c) => [c]
                      | Entry (EvaluatorCallback _ _ _ _ _) (inr c) => [c]
                      | _ => []
                      end) tr.

(** The last state of the tokenizer and of the encoder. *)
Definition final_tokenizer (tr : trace) : option Tokenizer :=
  last (map Some (tokenizers tr)) None.

Definition final_encoder (tr : trace) : option BertModel :=
  last (map Some (encoders tr)) None.

(** The modules the pipelines were run through. *)
Definition layers_called (tr : trace) : list DataLayer :=
  flat_map (fun en => match en with
                      | Entry (call_data_layer l) _ => [l]
                      | _ => []
                      end) tr.

Definition encoders_called (tr : trace) : list BertModel :=
  flat_map (fun en => match en with
                      | Entry (call_bert m _ _ _) _ => [m]
                      | _ => []
                      end) tr.

Definition losses_called (tr : trace) : list LossModule :=
  flat_map (fun en => match en with
                      | Entry (call_loss l _ _ _) _ => [l]
                      | _ => []
                      end) tr.

(** ner.py:111-121 and 136-147: every encoder call is fed the ids,
    type ids and mask of the latest data-layer call, every loss call
    the latest encoder output with the labels and the mask of that
    data-layer call.  [batch] and [hidden] are the latest outputs of a
    data layer and of the encoder. *)
Fixpoint wired (batch : option (Tensor * Tensor * Tensor * Tensor * Tensor))
  (hidden : option Tensor) (tr : trace) : Prop :=
  match tr with
  | [] => True
  | Entry (call_data_layer _) answer :: rest =>
      wired (match answer with inr o => Some o | inl _ => None end) None rest
  | Entry (call_bert _ ids type_ids mask) answer :: rest =>
      match batch with
      | Some (ids', type_ids', mask', _, _) =>
          ids = ids' /\ type_ids = type_ids' /\ mask = mask'
      | None => False
      end
      /\ wired batch (match answer with inr h => Some h | inl _ => None end)
           rest
  | Entry (call_loss _ hidden_states labels mask) _ :: rest =>
      match batch, hidden with
      | Some (_, _, mask', labels', _), Some h =>
          hidden_states = h /\ labels = labels' /\ mask = mask'
      | _, _ => False
      end
      /\ wired batch hidden rest
  | _ :: rest => wired batch hidden rest
  end.

(** The arguments of the two callbacks and of the training action. *)
Definition logger_calls (tr : trace)
  : list (list Tensor * Lambda * Lambda * option SummaryWriterObj) :=
  flat_map (fun en => match en with
                      | Entry (SimpleLossLoggerCallback t p g wr) _ =>
                          [(t, p, g, wr)]
                      | _ => []
                      end) tr.

Definition evaluator_calls (tr : trace)
  : list (list Tensor * Lambda * Lambda * option SummaryWriterObj * Z) :=
  flat_map (fun en => match en with
                      | Entry (EvaluatorCallback t i d wr s) _ =>
                          [(t, i, d, wr, s)]
                      | _ => []
                      end) tr.

Definition train_actions (tr : trace)
  : list (Factory * list Tensor * list Callback * string * Z * spec_float) :=
  flat_map (fun en => match en with
                      | Entry (train f t c _ o n r) _ => [(f, t, c, o, n, r)]
                      | _ => []
                      end) tr.

(** [l] is an initial part of [full]. *)
Definition initial_part {A : Type} (l full : list A) : Prop :=
  exists rest, full = l ++ rest.

Definition with_weight_decay (x : spec_float) (args : Args) : Args :=
  {| local_rank := local_rank args;
     batch_size := batch_size args;
     num_gpus := num_gpus args;
     num_epochs := num_epochs args;
     lr_warmup_proportion := lr_warmup_proportion args;
     lr := lr args;
     weight_decay := x;
     optimizer_kind := optimizer_kind args;
     mixed_precision := mixed_precision args;
     lr_policy := lr_policy args;
     pretrained_bert_model := pretrained_bert_model args;
     data_dir := data_dir args;
     classification_dropout := classification_dropout args;
     max_seq_length := max_seq_length args;
     output_filename := output_filename args;
     tensorboard_filename := tensorboard_filename args;
     bert_checkpoint := bert_checkpoint args;
     bert_config := bert_config args |}.

Definition with_bert_config (config : option string) (args : Args) : Args :=
  {| local_rank := local_rank args;
     batch_size := batch_size args;
     num_gpus := num_gpus args;
     num_epochs := num_epochs args;
     lr_warmup_proportion := lr_warmup_proportion args;
     lr := lr args;
     weight_decay := weight_decay args;
     optimizer_kind := optimizer_kind args;
     mixed_precision := mixed_precision args;
     lr_policy := lr_policy args;
     pretrained_bert_model := pretrained_bert_model args;
     data_dir := data_dir args;
     classification_dropout := classification_dropout args;
     max_seq_length := max_seq_length args;
     output_filename := output_filename args;
     tensorboard_filename := tensorboard_filename args;
     bert_checkpoint := bert_checkpoint args;
     bert_config := config |}.

Definition with_batch_size (b : Z) (args : Args) : Args :=
  {| local_rank := local_rank args;
     batch_size := b;
     num_gpus := num_gpus args;
     num_epochs := num_epochs args;
     lr_warmup_proportion := lr_warmup_proportion args;
     lr := lr args;
     weight_decay := weight_decay args;
     optimizer_kind := optimizer_kind args;
     mixed_precision := mixed_precision args;
     lr_policy := lr_policy args;
     pretrained_bert_model := pretrained_bert_model args;
     data_dir := data_dir args;
     classification_dropout := classification_dropout args;
     max_seq_length := max_seq_length args;
     output_filename := output_filename args;
     tensorboard_filename := tensorboard_filename args;
     bert_checkpoint := bert_checkpoint args;
     bert_config := bert_config args |}.

(** More scenarios: a batch size of zero, a batch larger than the
    training set, and an environment in which the evaluation file
    cannot be loaded. *)
Definition zero_batch : Scenario :=
  {| given_args := with_batch_size 0 default_args;
     train_file_exists := true;
     tensorboard_installed := true;
     vocabulary := 28996;
     train_set_size := 14041 |}.

Definition tiny_train_set : Scenario :=
  {| given_args := default_args;
     train_file_exists := true;
     tensorboard_installed := true;
     vocabulary := 28996;
     train_set_size := 20 |}.

Definition no_dev_file : world :=
  fun X past c =>
    match c in Call X return exn + X with
    | BertNERDataLayer t path m i b s n r f =>
        if String.eqb path "./conll2003/dev.txt"
        then inl (Exn FileNotFoundError "./conll2003/dev.txt")
        else scenario_world default_run _ past
               (BertNERDataLayer t path m i b s n r f)
    | c' => scenario_world default_run _ past c'
    end.

(** ** The construction of tokenizer and encoder, call by call *)

(** The calls that remain in [tr] begin with [c]; if [c] failed nothing
    follows, and if it answered [x] the rest is as [next x] says. *)
Definition then_call {X : Type} (c : Call X) (next : X -> trace -> Prop)
  (tr : trace) : Prop :=
  exists answer rest,
    tr = Entry c answer :: rest
    /\ match answer with
       | inl _ => rest = []
       | inr x => next x rest
       end.

Definition no_more (tr : trace) : Prop := tr = [].

(** ner.py:72-85, as the calls the script has to make on the factory
    [f]: the tokenizer first, then the encoder, each only if the one
    before returned. *)
Definition model_construction (args : Args) (f : Factory) : trace -> Prop :=
  match bert_checkpoint args with
  | None =>
      then_call (NemoBertTokenizer (pretrained_bert_model args)) (fun _ =>
      then_call (BERT (pretrained_model_name (pretrained_bert_model args)) f)
        (fun _ => no_more))
  | Some checkpoint =>
      then_call (SentencePieceTokenizer "tokenizer.model") (fun t =>
      then_call (add_special_tokens t ["[MASK]"; "[CLS]"; "[SEP]"]) (fun _ =>
      then_call (BERT (config_filename (bert_config args)) f) (fun m =>
      then_call (restore_from m checkpoint) (fun _ => no_more))))
  end.

Definition poly_policy : Scenario :=
  {| given_args := with_lr_policy "lr_poly" default_args;
     train_file_exists := true;
     tensorboard_installed := true;
     vocabulary := 28996;
     train_set_size := 14041 |}.

Definition cosine_policy : Scenario :=
  {| given_args := with_lr_policy "lr_cosine" default_args;
     train_file_exists := true;
     tensorboard_installed := true;
     vocabulary := 28996;
     train_set_size := 14041 |}.

(** * Properties *)

(** ** True division of integers *)

Module PyNumFacts.
Import PyNum.

Lemma pow2_ge_1 (e : Z) : 0 <= e -> 1 <= 2 ^ e.
Proof.
  intros He. assert (0 < 2 ^ e) by (apply Z.pow_pos_nonneg; lia). lia.
Qed.

Lemma scaled_floor_nonneg (n d e : Z) :
  0 <= e -> scaled_floor n d e = n / (d * 2 ^ e).
Proof.
  intros He. unfold scaled_floor, scaled.
  destruct (0 <=? e) eqn:E; [reflexivity | apply Z.leb_gt in E; lia].
Qed.

Lemma scaled_floor_neg (n d e : Z) :
  e < 0 -> scaled_floor n d e = (n * 2 ^ (- e)) / d.
Proof.
  intros He. unfold scaled_floor, scaled.
  destruct (0 <=? e) eqn:E; [apply Z.leb_le in E; lia | reflexivity].
Qed.

(** With the first guess of the exponent the scaled quotient already
    has 53 bits. *)
Lemma first_guess_normal (n d : Z) :
  0 < n -> 0 < d ->
  2 ^ 52 <= scaled_floor n d (Z.log2 n - Z.log2 d - prec).
Proof.
  intros Hn Hd.
  pose proof (Z.log2_spec n Hn) as [Hn1 Hn2].
  pose proof (Z.log2_spec d Hd) as [Hd1 Hd2].
  pose proof (Z.log2_nonneg n) as Ln. pose proof (Z.log2_nonneg d) as Ld.
  set (ln := Z.log2 n) in *. set (ld := Z.log2 d) in *.
  unfold prec.
  destruct (Z_le_gt_dec 0 (ln - ld - 53)) as [He | He].
  - rewrite scaled_floor_nonneg by assumption.
    apply Z.div_le_lower_bound.
    + pose proof (pow2_ge_1 _ He). nia.
    + assert (E : 2 ^ ln = 2 ^ Z.succ ld * 2 ^ (ln - ld - 53) * 2 ^ 52).
      { rewrite <- !Z.pow_add_r by lia. f_equal. lia. }
      pose proof (pow2_ge_1 _ He).
      assert (d * 2 ^ (ln - ld - 53) <= 2 ^ Z.succ ld * 2 ^ (ln - ld - 53))
        by nia.
      nia.
  - rewrite scaled_floor_neg by lia.
    apply Z.div_le_lower_bound; [lia |].
    assert (E : 2 ^ Z.succ ld * 2 ^ 52 = 2 ^ ln * 2 ^ (- (ln - ld - 53))).
    { rewrite <- !Z.pow_add_r by lia. f_equal. lia. }
    assert (0 < 2 ^ (- (ln - ld - 53))) by (apply Z.pow_pos_nonneg; lia).
    assert (d * 2 ^ 52 <= 2 ^ Z.succ ld * 2 ^ 52) by nia.
    assert (2 ^ ln * 2 ^ (- (ln - ld - 53)) <= n * 2 ^ (- (ln - ld - 53)))
      by nia.
    lia.
Qed.

(** One step up in the exponent halves the scaled quotient. *)
Lemma next_guess_normal (n d e : Z) :
  0 < n -> 0 < d ->
  2 ^ 53 <= scaled_floor n d e -> 2 ^ 52 <= scaled_floor n d (e + 1).
Proof.
  intros Hn Hd H.
  destruct (Z_le_gt_dec 0 e) as [He | He].
  - rewrite scaled_floor_nonneg in * by lia.
    pose proof (pow2_ge_1 _ He) as Hp.
    assert (Hm : d * 2 ^ e * (n / (d * 2 ^ e)) <= n)
      by (apply Z.mul_div_le; nia).
    apply Z.div_le_lower_bound; [nia |].
    rewrite Z.pow_add_r by lia. change (2 ^ 1) with 2.
    change (2 ^ 53) with (2 * 2 ^ 52) in H. nia.
  - rewrite scaled_floor_neg in H by lia.
    assert (Hm : d * (n * 2 ^ (- e) / d) <= n * 2 ^ (- e))
      by (apply Z.mul_div_le; lia).
    assert (Hs : 2 ^ (- e) = 2 * 2 ^ (- e - 1)).
    { replace (- e) with (1 + (- e - 1)) at 1 by lia.
      rewrite Z.pow_add_r by lia. reflexivity. }
    change (2 ^ 53) with (2 * 2 ^ 52) in H.
    destruct (Z.eq_dec e (-1)) as [-> | Hne].
    + rewrite scaled_floor_nonneg by lia. simpl (-1 + 1). 
      change (2 ^ 0) with 1. rewrite Z.mul_1_r.
      apply Z.div_le_lower_bound; [lia |].
      change (2 ^ (- -1)) with 2 in *. nia.
    + rewrite scaled_floor_neg by lia.
      apply Z.div_le_lower_bound; [lia |].
      replace (- (e + 1)) with (- e - 1) by lia. nia.
Qed.

(** The chosen exponent is the least one, or the scaled quotient has
    its full 53 bits. *)
Lemma quotient_exponent_normal (n d : Z) :
  0 < n -> 0 < d ->
  quotient_exponent n d = emin
  \/ 2 ^ 52 <= scaled_floor n d (quotient_exponent n d).
Proof.
  intros Hn Hd. unfold quotient_exponent.
  pose proof (first_guess_normal n d Hn Hd) as HA.
  set (e0 := Z.log2 n - Z.log2 d - prec) in *.
  assert (HB : 2 ^ 52 <=
               scaled_floor n d
                 (if 2 ^ prec <=? scaled_floor n d e0 then e0 + 1 else e0)).
  { destruct (2 ^ prec <=? scaled_floor n d e0) eqn:E; [| exact HA].
    apply Z.leb_le in E. apply next_guess_normal; assumption. }
  destruct (Z.max_spec
              (if 2 ^ prec <=? scaled_floor n d e0 then e0 + 1 else e0) emin)
    as [[_ ->] | [_ ->]]; [left; reflexivity | right; exact HB].
Qed.

Lemma pow2_53_lt_emax : 2 ^ 53 < 2 ^ emax.
Proof. apply Z.pow_lt_mono_r; unfold emax; lia. Qed.

(** Up to 2^53 the rounding of the quotient never reaches the next
    integer. *)
Lemma truediv_pos_trunc (n d : Z) :
  0 < n <= 2 ^ 53 -> 0 < d ->
  exists m e, truediv_pos n d = Some (m, e) /\ 0 <= m /\ cut m e = n / d.
Proof.
  intros [Hn Hb] Hd. unfold truediv_pos, cut.
  pose proof (quotient_exponent_normal n d Hn Hd) as Hnorm.
  pose proof pow2_53_lt_emax as Hmax.
  set (e := quotient_exponent n d) in *.
  set (M := 2 ^ emax) in *.
  destruct (Z_le_gt_dec 0 e) as [He | He].
  - destruct Hnorm as [Hm | Hnorm]; [unfold emin in Hm; lia |].
    rewrite scaled_floor_nonneg in Hnorm by lia.
    unfold scaled.
    destruct (0 <=? e) eqn:E; [| apply Z.leb_gt in E; lia].
    pose proof (pow2_ge_1 e He) as HP. set (P := 2 ^ e) in *.
    assert (Hden : 0 < d * P) by nia.
    pose proof (Z.div_mod n (d * P) ltac:(lia)) as Hdm.
    pose proof (Z.mod_pos_bound n (d * P) Hden) as Hr.
    unfold round_half_even.
    set (q := n / (d * P)) in *. set (r := n mod (d * P)) in *.
    assert (Hle : d * P <= 2) by nia.
    assert (Hr0 : r = 0) by nia.
    rewrite Hr0.
    replace (2 * 0 <? d * P) with true by (symmetry; apply Z.ltb_lt; lia).
    assert (HqP : q * P <= n) by nia.
    replace (M <=? q * P) with false by (symmetry; apply Z.leb_gt; lia).
    exists q, e. rewrite E. repeat split; [lia |].
    apply Z.div_unique_exact; [lia |].
    fold P. rewrite Hr0 in Hdm. lia.
  - unfold scaled.
    destruct (0 <=? e) eqn:E; [apply Z.leb_le in E; lia |].
    assert (HE : 2 ^ e = 0) by (apply Z.pow_neg_r; lia). rewrite HE.
    assert (HP : 1 <= 2 ^ (- e)) by (apply pow2_ge_1; lia).
    rewrite scaled_floor_neg in Hnorm by lia.
    assert (HP54 : e = emin -> 2 ^ 54 <= 2 ^ (- e)).
    { intros ->. apply Z.pow_le_mono_r; unfold emin; lia. }
    set (P := 2 ^ (- e)) in *.
    pose proof (Z.div_mod (n * P) d ltac:(lia)) as Hdm.
    pose proof (Z.mod_pos_bound (n * P) d Hd) as Hr.
    pose proof (Z.div_mod n d ltac:(lia)) as Hdm0.
    pose proof (Z.mod_pos_bound n d Hd) as Hr0.
    assert (Hq : n * P / d / P = n / d).
    { rewrite Z.div_div by lia. apply Z.div_mul_cancel_r; lia. }
    assert (Hk : 0 <= n / d) by (apply Z.div_pos; lia).
    assert (Hq0 : 0 <= n * P / d) by (apply Z.div_pos; nia).
    unfold round_half_even.
    set (q := n * P / d) in *. set (r := (n * P) mod d) in *.
    set (k := n / d) in *.
    pose proof (Z.div_mod q P ltac:(lia)) as Hqm.
    pose proof (Z.mod_pos_bound q P ltac:(lia)) as Hqr.
    rewrite Hq in Hqm.
    assert (Hup : d <= 2 * r -> (q + 1) / P = k).
    { intros H2r. symmetry.
      apply (Z.div_unique_pos (q + 1) P k (q mod P + 1)); [| lia].
      split; [lia |].
      destruct (Z.eq_dec (q mod P + 1) P) as [Hbad | ]; [exfalso | lia].
      assert (H1 : P * (d * (k + 1) - n) = d - r) by nia.
      assert (H2 : P <= d - r) by nia.
      assert (H3 : 2 * P <= d) by lia.
      assert (H4 : 2 * q + 1 <= n) by nia.
      destruct Hnorm as [Hm | Hnorm].
      - specialize (HP54 Hm). change (2 ^ 54) with (2 * 2 ^ 53) in HP54.
        lia.
      - change (2 ^ 53) with (2 * 2 ^ 52) in Hb. lia. }
    replace (M <=? _ * 0) with false
      by (symmetry; apply Z.leb_gt; rewrite Z.mul_0_r; lia).
    destruct (2 * r <? d) eqn:C1.
    + exists q, e. rewrite E. repeat split; [lia | exact Hq].
    + apply Z.ltb_ge in C1.
      destruct (d <? 2 * r) eqn:C2.
      * exists (q + 1), e. rewrite E. repeat split; [lia | auto].
      * destruct (Z.even q).
        -- exists q, e. rewrite E. repeat split; [lia | exact Hq].
        -- exists (q + 1), e. rewrite E. repeat split; [lia | auto].
Qed.

(** Division by 8 is exact up to 2^53. *)
Lemma truediv_pos_8 (v : Z) :
  0 < v <= 2 ^ 53 ->
  exists m e, truediv_pos v 8 = Some (m, e)
              /\ e < 0 /\ 0 < m /\ m * 8 = v * 2 ^ (- e).
Proof.
  intros [Hv Hb].
  destruct (Z.eq_dec v (2 ^ 53)) as [-> | Hne].
  { exists (2 ^ 52), (-2). repeat split; vm_compute; reflexivity. }
  unfold truediv_pos.
  pose proof (quotient_exponent_normal v 8 Hv ltac:(lia)) as Hnorm.
  pose proof pow2_53_lt_emax as Hmax.
  set (e := quotient_exponent v 8) in *.
  set (M := 2 ^ emax) in *.
  destruct (Z_le_gt_dec 0 e) as [He | He].
  - exfalso.
    destruct Hnorm as [Hm | Hnorm]; [unfold emin in Hm; lia |].
    rewrite scaled_floor_nonneg in Hnorm by lia.
    pose proof (pow2_ge_1 e He) as HP. set (P := 2 ^ e) in *.
    assert (8 * P * (v / (8 * P)) <= v) by (apply Z.mul_div_le; lia).
    change (2 ^ 53) with (2 * 2 ^ 52) in *. nia.
  - assert (Hs : 3 <= - e).
    { destruct Hnorm as [Hm | Hnorm]; [unfold emin in Hm; lia |].
      rewrite scaled_floor_neg in Hnorm by lia.
      destruct (Z_le_gt_dec 3 (- e)) as [| Hlt]; [assumption | exfalso].
      assert (HP : 2 ^ (- e) <= 2 ^ 2) by (apply Z.pow_le_mono_r; lia).
      change (2 ^ 2) with 4 in HP.
      assert (8 * (v * 2 ^ (- e) / 8) <= v * 2 ^ (- e))
        by (apply Z.mul_div_le; lia).
      change (2 ^ 53) with (2 * 2 ^ 52) in *. nia. }
    unfold scaled.
    destruct (0 <=? e) eqn:E; [apply Z.leb_le in E; lia |].
    assert (HE : 2 ^ e = 0) by (apply Z.pow_neg_r; lia). rewrite HE.
    assert (HP : 2 ^ (- e) = 2 ^ (- e - 3) * 8).
    { replace (- e) with ((- e - 3) + 3) at 1 by lia.
      rewrite Z.pow_add_r by lia. reflexivity. }
    assert (HP' : 1 <= 2 ^ (- e - 3)) by (apply pow2_ge_1; lia).
    rewrite HP. set (P' := 2 ^ (- e - 3)) in *.
    unfold round_half_even.
    rewrite Z.mul_assoc, Z.div_mul, Z.mod_mul by lia.
    change (2 * 0 <? 8) with true. cbv iota.
    replace (M <=? _ * 0) with false
      by (symmetry; apply Z.leb_gt; rewrite Z.mul_0_r; lia).
    exists (v * P'), e. repeat split; [lia | nia |].
    rewrite HP. ring.
Qed.

End PyNumFacts.

(** ** Steps per epoch and padded vocabulary *)

Lemma int_of_truediv (n d : Z) :
  0 <= n <= 2 ^ 53 -> 0 < d ->
  ebind (PyNum.truediv n d) PyNum.int_of_float = inr (n / d).
Proof.
  intros [Hn Hb] Hd. unfold PyNum.truediv.
  destruct (d =? 0) eqn:Ed; [apply Z.eqb_eq in Ed; lia |].
  destruct (n =? 0) eqn:En.
  - apply Z.eqb_eq in En. subst n. reflexivity.
  - apply Z.eqb_neq in En.
    replace (n <? 0) with false by (symmetry; apply Z.ltb_ge; lia).
    replace (d <? 0) with false by (symmetry; apply Z.ltb_ge; lia).
    rewrite !Z.abs_eq by lia.
    destruct (PyNumFacts.truediv_pos_trunc n d) as (m & e & -> & Hm & Hcut);
      [lia | lia |].
    unfold PyNum.cut in Hcut. cbn [xorb ebind].
    destruct (m =? 0) eqn:Em.
    + apply Z.eqb_eq in Em. subst m. cbn [ebind PyNum.int_of_float].
      rewrite <- Hcut. destruct (0 <=? e); [rewrite Z.mul_0_l | ]; reflexivity.
    + apply Z.eqb_neq in Em. cbn [ebind PyNum.int_of_float].
      unfold PyNum.trunc_mag, PyNum.cut. rewrite Z2Pos.id by lia.
      rewrite Hcut.
      reflexivity.
Qed.

Lemma ceil_of_truediv_8 (v : Z) :
  0 <= v <= 2 ^ 53 ->
  ebind (PyNum.truediv v 8) PyNum.ceil = inr (- ((- v) / 8)).
Proof.
  intros [Hv Hb]. unfold PyNum.truediv. change (8 =? 0) with false.
  change (8 <? 0) with false. cbv iota.
  destruct (v =? 0) eqn:Ev.
  - apply Z.eqb_eq in Ev. subst v. reflexivity.
  - apply Z.eqb_neq in Ev.
    replace (v <? 0) with false by (symmetry; apply Z.ltb_ge; lia).
    rewrite Z.abs_eq by lia. change (Z.abs 8) with 8.
    destruct (PyNumFacts.truediv_pos_8 v) as (m & e & -> & He & Hm & Hx);
      [lia |].
    replace (m =? 0) with false by (symmetry; apply Z.eqb_neq; lia).
    cbn [xorb ebind PyNum.ceil]. unfold PyNum.ceil_mag.
    replace (0 <=? e) with false by (symmetry; apply Z.leb_gt; lia).
    rewrite Z2Pos.id by lia.
    assert (HP : 0 < 2 ^ (- e)) by (apply Z.pow_pos_nonneg; lia).
    do 2 f_equal.
    rewrite <- (Z.div_mul_cancel_r (- m) (2 ^ (- e)) 8) by lia.
    rewrite <- (Z.div_mul_cancel_r (- v) 8 (2 ^ (- e))) by lia.
    f_equal; lia.
Qed.

(** The script's arithmetic raises nothing but ZeroDivisionError and
    OverflowError, and yields no infinity and no NaN. *)
Lemma truediv_cases (a b : Z) :
  match PyNum.truediv a b with
  | inl e => arithmetic_error e
  | inr (S754_zero _) | inr (S754_finite _ _ _) => True
  | inr _ => False
  end.
Proof.
  unfold PyNum.truediv, arithmetic_error.
  destruct (b =? 0); [left; reflexivity |].
  destruct (a =? 0); [exact I |].
  destruct (PyNum.truediv_pos (Z.abs a) (Z.abs b)) as [[m e] |];
    [| right; reflexivity].
  destruct (m =? 0); exact I.
Qed.

Lemma steps_per_epoch_raises (n b g : Z) (e : exn) :
  steps_per_epoch n b g = inl e -> arithmetic_error e.
Proof.
  unfold steps_per_epoch. pose proof (truediv_cases n (b * g)) as H.
  destruct (PyNum.truediv n (b * g)) as [e' | [s | s | | s m x]];
    cbn; intros E; try discriminate E; try contradiction.
  injection E as <-. exact H.
Qed.

Lemma vocab_size_raises (v : Z) (e : exn) :
  vocab_size v = inl e -> arithmetic_error e.
Proof.
  unfold vocab_size. pose proof (truediv_cases v 8) as H.
  destruct (PyNum.truediv v 8) as [e' | [s | s | | s m x]];
    cbn; intros E; try discriminate E; try contradiction.
  injection E as <-. exact H.
Qed.

(** C3, as amended: for a training set of [n <= 2^53] examples and
    positive [batch_size] and [num_gpus], the computed
    [steps_per_epoch] is the floor division [n / (batch_size * num_gpus)]. *)
Theorem steps_per_epoch_floor_division (n b g : Z) :
  0 <= n <= 2 ^ 53 -> 0 < b -> 0 < g ->
  steps_per_epoch n b g = inr (n / (b * g)).
Proof.
  intros Hn Hb Hg. unfold steps_per_epoch.
  apply int_of_truediv; [assumption | nia].
Qed.

Lemma steps_per_epoch_floor_division_witness :
  (0 <= 14041 <= 2 ^ 53 /\ 0 < 32 /\ 0 < 1)
  /\ steps_per_epoch 14041 32 1 = inr (14041 / (32 * 1)).
Proof.
  split; [lia |].
  apply (steps_per_epoch_floor_division 14041 32 1); lia.
Defined.

(** C3 as stated fails above 2^53: the quotient is rounded to a float
    before it is cut to an integer. *)
Lemma steps_per_epoch_rounds_above_2_53 :
  0 <= 2 ^ 53 + 1 /\ 0 < 1 /\ 0 < 1
  /\ steps_per_epoch (2 ^ 53 + 1) 1 1 = inr (2 ^ 53)
  /\ steps_per_epoch (2 ^ 53 + 1) 1 1 <> inr ((2 ^ 53 + 1) / (1 * 1)).
Proof.
  split; [lia |]. split; [lia |]. split; [lia |].
  split; [vm_compute; reflexivity | vm_compute; discriminate].
Qed.

(** C4, as amended: for a tokenizer vocabulary of [v <= 2^53] entries
    the padded size is [8 * ceil(v / 8)]: a multiple of 8, at least
    [v], and less than 8 above it. *)
Theorem vocab_size_next_multiple_of_8 (v : Z) :
  0 <= v <= 2 ^ 53 ->
  exists padded,
    vocab_size v = inr padded
    /\ padded = 8 * - ((- v) / 8)
    /\ padded mod 8 = 0
    /\ v <= padded
    /\ padded - v < 8.
Proof.
  intros Hv. unfold vocab_size. rewrite ceil_of_truediv_8 by assumption.
  cbn [ebind]. eexists. split; [reflexivity |]. split; [reflexivity |].
  pose proof (Z.div_mod (- v) 8 ltac:(lia)) as Hdm.
  pose proof (Z.mod_pos_bound (- v) 8 ltac:(lia)) as Hr.
  split; [| lia].
  rewrite Z.mul_comm. apply Z.mod_mul. lia.
Qed.

Lemma vocab_size_next_multiple_of_8_witness :
  0 <= 28996 <= 2 ^ 53
  /\ exists padded,
       vocab_size 28996 = inr padded
       /\ padded = 8 * - ((- 28996) / 8)
       /\ padded mod 8 = 0
       /\ 28996 <= padded
       /\ padded - 28996 < 8.
Proof.
  split; [lia |].
  apply (vocab_size_next_multiple_of_8 28996); lia.
Defined.

(** C4 as stated fails above 2^53: the padded size can fall below the
    vocabulary size. *)
Lemma vocab_size_shrinks_above_2_53 :
  0 <= 2 ^ 53 + 1
  /\ vocab_size (2 ^ 53 + 1) = inr (2 ^ 53)
  /\ ~ (2 ^ 53 + 1 <= 2 ^ 53).
Proof.
  split; [lia |]. split; [vm_compute; reflexivity | lia].
Qed.

(** ** Runs *)

Lemma run_from_bind {A B : Type} (w : world) (p : prog A) (f : A -> prog B)
  (past : trace) :
  run_from w (bind p f) past =
  match run_from w p past with
  | (h, Returned a) => run_from w (f a) h
  | (h, Raised o e) => (h, Raised o e)
  end.
Proof.
  revert past. induction p as [a | o e | X c k IH]; intros past; cbn.
  - reflexivity.
  - reflexivity.
  - apply IH.
Qed.

Lemma run_from_extends {A : Type} (w : world) (p : prog A) (past : trace) :
  exists more, fst (run_from w p past) = past ++ more.
Proof.
  revert past. induction p as [a | o e | X c k IH]; intros past; cbn.
  - exists []. symmetry. apply app_nil_r.
  - exists []. symmetry. apply app_nil_r.
  - destruct (IH (w X past c) (past ++ [Entry c (w X past c)])) as [more E].
    exists (Entry c (w X past c) :: more). rewrite E, <- app_assoc.
    reflexivity.
Qed.

(** Symbolic execution of a run recorded in hypothesis [H]: reduce up
    to the next answer of the environment or the next test of the
    script, and split on it. *)
Ltac run_reduce H :=
  cbn [run_from bind call lift try_except app negb
       tb_writer neural_factory tokenizer bert_model] in H.

Ltac run_split H :=
  match type of H with
  | context [lift ?c] => destruct c eqn:?
  | context [match negb ?b with _ => _ end] => is_var b; destruct b
  | context [match ?x with _ => _ end] =>
      lazymatch x with
      | context [match _ with _ => _ end] => fail
      | _ => idtac
      end;
      first [ is_var x; destruct x | destruct x eqn:? ]
  end.

(** All the ways a run can go. *)
Ltac run_cases H := run_reduce H; repeat (run_split H; run_reduce H).

(** The ways that are still possible once the run is known to return. *)
Ltac run_exec H := run_reduce H; repeat (run_split H; run_reduce H;
                                          try discriminate H).

(** Each element of a list read off a trace. *)
Ltac each_call tac := repeat (apply Forall_cons; [tac |]); apply Forall_nil.

(** Start on a run of the whole script. *)
Ltac run_main H :=
  unfold run, main, script, setup, pipelines, lr_policy_func in H;
  run_reduce H.

Ltac policy_tests :=
  repeat match goal with
         | E : String.eqb _ _ = true |- _ => apply String.eqb_eq in E
         | E : String.eqb _ _ = false |- _ => apply String.eqb_neq in E
         end.

(** ** The dataset check *)

(** C1: when [os.path.isfile] denies [<data_dir>/train.txt], the script
    raises FileNotFoundError with its remediation message, whatever
    the parsed arguments are, and the only calls made are the argument
    parsing and the file test: no tokenizer, encoder, data layer or
    loss module has been constructed. *)
Theorem missing_train_file_raises (w : world) (args : Args) :
  w _ [] (parse_args parser) = inr args ->
  w _ [Entry (parse_args parser) (inr args)]
    (os_path_isfile (os_path_join (data_dir args) "train.txt")) = inr false ->
  run w main =
    ([Entry (parse_args parser) (inr args);
      Entry (os_path_isfile (os_path_join (data_dir args) "train.txt"))
        (inr false)],
     Raised Script dataset_not_found)
  /\ exn_cls dataset_not_found = FileNotFoundError
  /\ stages (fst (run w main)) = [StParse; StValidate].
Proof.
  intros Hparse Hfile.
  assert (E : run w main =
              ([Entry (parse_args parser) (inr args);
                Entry (os_path_isfile (os_path_join (data_dir args) "train.txt"))
                  (inr false)],
               Raised Script dataset_not_found)).
  { unfold run, main, script, setup, data_file.
    cbn [run_from bind call app]. rewrite Hparse.
    cbn [run_from bind call app]. rewrite Hfile. reflexivity. }
  rewrite E. repeat split.
Qed.

Lemma missing_train_file_raises_witness :
  (scenario_world no_train_file _ [] (parse_args parser)
   = inr (given_args no_train_file)
   /\ scenario_world no_train_file _
        [Entry (parse_args parser) (inr (given_args no_train_file))]
        (os_path_isfile
           (os_path_join (data_dir (given_args no_train_file)) "train.txt"))
      = inr false)
  /\ snd (run (scenario_world no_train_file) main)
     = Raised Script dataset_not_found.
Proof.
  split; [split; reflexivity |].
  destruct (missing_train_file_raises (scenario_world no_train_file)
              (given_args no_train_file)) as [E _];
    [reflexivity | reflexivity |].
  rewrite E. reflexivity.
Defined.

(** ** The order of the stages *)

(** C7, as amended: on every successful run the stages come in the
    order parse, validate, tokenizer and encoder, build (training data
    layer and loss), connect (training pipeline), build (evaluation
    data layer), connect (evaluation pipeline), callbacks, schedule,
    training driver; the driver is invoked exactly once and last. *)
Theorem stages_of_successful_run (w : world) (args : Args) (tr : trace) :
  w _ [] (parse_args parser) = inr args ->
  run w main = (tr, Returned tt) ->
  phases (stages tr) =
    [StParse; StValidate; StModel; StBuild; StConnect; StBuild; StConnect;
     StCallbacks; StSchedule; StTrain]
  /\ data_layer_paths tr =
       [os_path_join (data_dir args) "train.txt";
        os_path_join (data_dir args) "dev.txt"]
  /\ train_calls tr = 1%nat
  /\ ends_with_train tr = true.
Proof.
  intros Hparse H. run_main H. rewrite Hparse in H.
  run_exec H.
  all: injection H as <-.
  all: repeat split; reflexivity.
Qed.

Lemma stages_of_successful_run_witness :
  (scenario_world default_run _ [] (parse_args parser) = inr default_args
   /\ snd (run (scenario_world default_run) main) = Returned tt)
  /\ phases (stages (fst (run (scenario_world default_run) main))) =
       [StParse; StValidate; StModel; StBuild; StConnect; StBuild; StConnect;
        StCallbacks; StSchedule; StTrain].
Proof.
  split; [split; vm_compute; reflexivity |].
  destruct (stages_of_successful_run (scenario_world default_run)
              default_args (fst (run (scenario_world default_run) main)))
    as [Hphases _]; [reflexivity | vm_compute; reflexivity |].
  exact Hphases.
Defined.

(** C7 as stated fails: on the default command line, with every call
    succeeding, the evaluation data layer is built after the training
    pipeline has been connected. *)
Lemma build_follows_connect :
  snd (run (scenario_world default_run) main) = Returned tt
  /\ stages (fst (run (scenario_world default_run) main)) =
       [StParse; StValidate; StModel; StModel; StBuild; StBuild;
        StConnect; StConnect; StConnect; StBuild; StConnect; StConnect;
        StConnect; StCallbacks; StCallbacks; StSchedule; StTrain]
  /\ nondecreasing
       (map stage_index (stages (fst (run (scenario_world default_run) main))))
     = false.
Proof.
  repeat split; vm_compute; reflexivity.
Qed.

(** ** The learning-rate policy flag *)

(** C2, as amended: with a value of [--lr_policy] outside
    {lr_warmup, lr_poly, lr_cosine} the script never completes and never
    invokes the training driver, and every run that gets as far as
    registering the evaluation callback raises the ValueError; with a
    value inside the set the script raises no ValueError of its own. *)
Theorem invalid_lr_policy_raises (w : world) (args : Args) (tr : trace)
  (out : outcome unit) :
  w _ [] (parse_args parser) = inr args ->
  run w main = (tr, out) ->
  (~ In (lr_policy args) lr_policies ->
   out <> Returned tt
   /\ train_calls tr = 0%nat
   /\ (evaluator_registered tr = true ->
       out = Raised Script invalid_lr_policy))
  /\ (In (lr_policy args) lr_policies ->
      forall msg, out <> Raised Script (Exn ValueError msg)).
Proof.
  intros Hparse H. run_main H. rewrite Hparse in H.
  run_cases H.
  all: injection H as <- <-; policy_tests; unfold lr_policies; cbn [In].
  all: split; [intros Hbad | intros Hok msg].
  all: try match goal with
           | E : lr_policy _ = _ |- _ /\ _ =>
               exfalso; apply Hbad; rewrite E;
               repeat first [left; reflexivity | right]
           end.
  all: try (split; [discriminate |]; split; [reflexivity |];
            cbn; first [discriminate | reflexivity]).
  all: try discriminate.
  all: destruct Hok as [Hok | [Hok | [Hok | []]]]; symmetry in Hok;
    contradiction.
Qed.
Lemma invalid_lr_policy_raises_witness :
  (scenario_world misspelt_policy _ [] (parse_args parser)
   = inr (given_args misspelt_policy)
   /\ ~ In (lr_policy (given_args misspelt_policy)) lr_policies
   /\ evaluator_registered (fst (run (scenario_world misspelt_policy) main))
      = true)
  /\ snd (run (scenario_world misspelt_policy) main)
     = Raised Script invalid_lr_policy.
Proof.
  assert (Hbad : ~ In (lr_policy (given_args misspelt_policy)) lr_policies).
  { cbn. intros [H | [H | [H | []]]]; discriminate H. }
  assert (Hreg : evaluator_registered
                   (fst (run (scenario_world misspelt_policy) main)) = true)
    by (vm_compute; reflexivity).
  split; [split; [reflexivity | split; [exact Hbad | exact Hreg]] |].
  destruct (invalid_lr_policy_raises (scenario_world misspelt_policy)
              (given_args misspelt_policy)
              (fst (run (scenario_world misspelt_policy) main))
              (snd (run (scenario_world misspelt_policy) main)))
    as [Hinvalid _]; [reflexivity | vm_compute; reflexivity |].
  destruct (Hinvalid Hbad) as (_ & _ & Hraise).
  exact (Hraise Hreg).
Defined.

(** C2 as stated fails: with a value outside the set and no training
    file the script raises FileNotFoundError, not ValueError. *)
Lemma invalid_lr_policy_without_train_file :
  ~ In (lr_policy (given_args no_train_file)) lr_policies
  /\ snd (run (scenario_world no_train_file) main)
     = Raised Script dataset_not_found
  /\ exn_cls dataset_not_found <> ValueError.
Proof.
  split; [| split; [vm_compute; reflexivity | discriminate]].
  cbn. intros [H | [H | [H | []]]]; discriminate H.
Qed.

(** ** Failures *)

(** C5, as amended: the script raises two exceptions of its own,
    FileNotFoundError only when the training file is missing and
    ValueError only when the policy is unrecognized; its arithmetic can
    raise ZeroDivisionError or OverflowError; it catches one kind of
    failure, a ModuleNotFoundError raised in the [try] block around
    tensorboardX, prints its message and goes on without a writer;
    every other failing call ends the run with its exception. *)
Theorem failures_propagate (w : world) (args : Args) (tr : trace)
  (out : outcome unit) :
  w _ [] (parse_args parser) = inr args ->
  run w main = (tr, out) ->
  unhandled_failures_end_run caught_by_script tr out
  /\ (forall e, out = Raised External e -> last_failure tr = Some e)
  /\ (forall e, out = Raised Script e ->
      (e = dataset_not_found /\ os_path_isfile_answers tr = [false])
      \/ (e = invalid_lr_policy /\ ~ In (lr_policy args) lr_policies))
  /\ (forall e, out = Raised Operator e -> arithmetic_error e)
  /\ caught_failures_handled tr.
Proof.
  intros Hparse H. run_main H. rewrite Hparse in H.
  run_cases H.
  all: injection H as <- <-; policy_tests.
  all: split; [| split; [| split; [| split]]].
  all: try (intros ? Hout; first [discriminate Hout | injection Hout as <-]).
  all: try reflexivity.
  all: try solve [eauto using steps_per_epoch_raises, vocab_size_raises].
  all: try (cbn [unhandled_failures_end_run caught_failures_handled failure
                 caught_by_script in_tensorboard_try andb];
            repeat match goal with
                   | E : is_ModuleNotFoundError _ = _ |- _ => rewrite E
                   end;
            cbn [unhandled_failures_end_run caught_failures_handled failure
                 caught_by_script in_tensorboard_try andb];
            solve [repeat first [split | reflexivity | apply Forall_nil
                                | apply Forall_cons]]).
  all: try (left; split; reflexivity).
  all: right; split; [reflexivity |].
  all: unfold lr_policies; cbn [In];
    intros [Hok | [Hok | [Hok | []]]]; symmetry in Hok; contradiction.
Qed.

Lemma failures_propagate_witness :
  (scenario_world no_tensorboard _ [] (parse_args parser) = inr default_args)
  /\ unhandled_failures_end_run caught_by_script
       (fst (run (scenario_world no_tensorboard) main))
       (snd (run (scenario_world no_tensorboard) main)).
Proof.
  split; [reflexivity |].
  destruct (failures_propagate (scenario_world no_tensorboard) default_args
              (fst (run (scenario_world no_tensorboard) main))
              (snd (run (scenario_world no_tensorboard) main)))
    as [Hprop _]; [reflexivity | vm_compute; reflexivity |].
  exact Hprop.
Defined.

Lemma nothing_caught_no_failure (tr : trace) :
  unhandled_failures_end_run caught_nowhere tr (Returned tt) ->
  no_failure tr = true.
Proof.
  induction tr as [| en rest IH]; cbn; [reflexivity |].
  destruct (failure en) as [e |].
  - unfold caught_nowhere. intros [_ H]. discriminate H.
  - exact IH.
Qed.

(** C5 as stated fails: without tensorboardX the import raises
    ModuleNotFoundError, the script catches it and runs to its end. *)
Lemma tensorboard_failure_is_caught :
  map failure (firstn 3 (fst (run (scenario_world no_tensorboard) main))) =
    [None; None;
     Some (Exn ModuleNotFoundError "No module named 'tensorboardX'")]
  /\ snd (run (scenario_world no_tensorboard) main) = Returned tt
  /\ ~ unhandled_failures_end_run caught_nowhere
         (fst (run (scenario_world no_tensorboard) main))
         (snd (run (scenario_world no_tensorboard) main)).
Proof.
  assert (E1 : snd (run (scenario_world no_tensorboard) main) = Returned tt)
    by (vm_compute; reflexivity).
  assert (E2 : no_failure (fst (run (scenario_world no_tensorboard) main))
               = false)
    by (vm_compute; reflexivity).
  split; [vm_compute; reflexivity |].
  split; [exact E1 |].
  rewrite E1. intros H. apply nothing_caught_no_failure in H.
  rewrite E2 in H. discriminate H.
Qed.

(** ** The learning-rate schedule *)

(** C6: a run constructs a schedule exactly when it has registered the
    evaluation callback and [--lr_policy] is one of the three names;
    it is then the one schedule the name selects, WarmupAnnealing with
    [warmup_ratio = lr_warmup_proportion] for lr_warmup,
    SquareAnnealing for lr_poly, CosineAnnealing for lr_cosine, each on
    [num_epochs * steps_per_epoch] total steps, and it is the schedule
    the training driver is invoked with. *)
Theorem lr_schedule_selection (w : world) (args : Args) (tr : trace)
  (out : outcome unit) :
  w _ [] (parse_args parser) = inr args ->
  run w main = (tr, out) ->
  (evaluator_registered tr = false -> schedules tr = [])
  /\ (evaluator_registered tr = true ->
      exists n steps,
        train_data_sizes tr = [n]
        /\ steps_per_epoch n (batch_size args) (num_gpus args) = inr steps
        /\ (lr_policy args = "lr_warmup" ->
            schedules tr = [Warmup (num_epochs args * steps)
                              (lr_warmup_proportion args)])
        /\ (lr_policy args = "lr_poly" ->
            schedules tr = [Square (num_epochs args * steps)])
        /\ (lr_policy args = "lr_cosine" ->
            schedules tr = [Cosine (num_epochs args * steps)])
        /\ (~ In (lr_policy args) lr_policies -> schedules tr = []))
  /\ trained_policies tr = built_policies tr
  /\ (out = Returned tt -> List.length (built_policies tr) = 1%nat).
Proof.
  intros Hparse H. run_main H. rewrite Hparse in H.
  run_cases H.
  all: injection H as <- <-; policy_tests.
  all: split; [| split; [| split]].
  all: try reflexivity.
  all: try (intros Hout; first [discriminate Hout | reflexivity]).
  all: intros Hreg; cbn in Hreg; try discriminate Hreg; try reflexivity.
  all: do 2 eexists.
  all: split; [reflexivity |].
  all: split; [eassumption |].
  all: try match goal with E : lr_policy _ = _ |- _ => rewrite E end.
  all: repeat match goal with
              | |- (_ = _ -> _) /\ _ =>
                  split;
                  [ first [ intros _; reflexivity
                          | let E := fresh in
                            intros E; first [discriminate E | contradiction] ]
                  |]
              end.
  all: first
    [ intros _; reflexivity
    | intros Hbad; exfalso; apply Hbad; unfold lr_policies; cbn [In];
      repeat first [left; reflexivity | right] ].
Qed.

Lemma lr_schedule_selection_witness :
  (scenario_world poly_policy _ [] (parse_args parser)
   = inr (given_args poly_policy)
   /\ scenario_world cosine_policy _ [] (parse_args parser)
      = inr (given_args cosine_policy))
  /\ schedules (fst (run (scenario_world poly_policy) main))
     = [Square (1 * 438)]
  /\ schedules (fst (run (scenario_world cosine_policy) main))
     = [Cosine (1 * 438)].
Proof.
  assert (Esteps : steps_per_epoch 14041 32 1 = inr 438)
    by (vm_compute; reflexivity).
  split; [split; reflexivity |].
  split.
  - assert (Esize : train_data_sizes
                      (fst (run (scenario_world poly_policy) main)) = [14041])
      by (vm_compute; reflexivity).
    assert (Ereg : evaluator_registered
                     (fst (run (scenario_world poly_policy) main)) = true)
      by (vm_compute; reflexivity).
    destruct (lr_schedule_selection (scenario_world poly_policy)
                (given_args poly_policy)
                (fst (run (scenario_world poly_policy) main))
                (snd (run (scenario_world poly_policy) main)))
      as (_ & Hsel & _); [reflexivity | vm_compute; reflexivity |].
    destruct (Hsel Ereg) as (n & steps & Hn & Hsteps & _ & Hpoly & _).
    rewrite Esize in Hn. injection Hn as <-.
    change (steps_per_epoch 14041 32 1 = inr steps) in Hsteps.
    rewrite Esteps in Hsteps. injection Hsteps as <-.
    exact (Hpoly eq_refl).
  - assert (Esize : train_data_sizes
                      (fst (run (scenario_world cosine_policy) main))
                    = [14041])
      by (vm_compute; reflexivity).
    assert (Ereg : evaluator_registered
                     (fst (run (scenario_world cosine_policy) main)) = true)
      by (vm_compute; reflexivity).
    destruct (lr_schedule_selection (scenario_world cosine_policy)
                (given_args cosine_policy)
                (fst (run (scenario_world cosine_policy) main))
                (snd (run (scenario_world cosine_policy) main)))
      as (_ & Hsel & _); [reflexivity | vm_compute; reflexivity |].
    destruct (Hsel Ereg) as (n & steps & Hn & Hsteps & _ & _ & Hcosine & _).
    rewrite Esize in Hn. injection Hn as <-.
    change (steps_per_epoch 14041 32 1 = inr steps) in Hsteps.
    rewrite Esteps in Hsteps. injection Hsteps as <-.
    exact (Hcosine eq_refl).
Defined.

(** ** Device placement *)



(** ** Tokenizer and encoder *)

(** C10: once the factory is there, the script constructs the tokenizer
    and the encoder of the branch that [--bert_checkpoint] selects, in
    this order and as far as the calls return: with a checkpoint
    SentencePieceTokenizer on "tokenizer.model", [add_special_tokens]
    with [MASK], [CLS] and [SEP], BERT from [--bert_config] and
    [restore_from] the checkpoint, [--pretrained_bert_model] playing no
    part; without one NemoBertTokenizer on [--pretrained_bert_model]
    and BERT loaded from that name.  It makes no other tokenizer or
    encoder call, and the data layers and pipelines get the tokenizer
    and the encoder in the last state these calls left them in. *)
Theorem bert_checkpoint_branch (w : world) (args : Args) (tr : trace)
  (out : outcome unit) :
  w _ [] (parse_args parser) = inr args ->
  run w main = (tr, out) ->
  match factories tr with
  | [] => model_entries tr = []
  | f :: _ => model_construction args f (model_entries tr)
  end
  /\ Forall (model_call_as_configured args) tr
  /\ Forall (fun c => Some (dlc_tokenizer c) = final_tokenizer tr)
       (data_layer_calls tr)
  /\ Forall (fun m => Some m = final_encoder tr) (encoders_called tr)
  /\ (out = Returned tt ->
      match bert_checkpoint args with
      | Some checkpoint =>
          exists t t' f m m',
            model_entries tr =
              [Entry (SentencePieceTokenizer "tokenizer.model") (inr t);
               Entry (add_special_tokens t ["[MASK]"; "[CLS]"; "[SEP]"])
                 (inr t');
               Entry (BERT (config_filename (bert_config args)) f) (inr m);
               Entry (restore_from m checkpoint) (inr m')]
      | None =>
          exists t f m,
            model_entries tr =
              [Entry (NemoBertTokenizer (pretrained_bert_model args)) (inr t);
               Entry (BERT (pretrained_model_name (pretrained_bert_model args))
                        f) (inr m)]
      end)
  /\ (bert_checkpoint args <> None ->
      forall name, script (with_pretrained_bert_model name args) = script args).
Proof.
  intros Hparse H.
  assert (Hframe : bert_checkpoint args <> None ->
                   forall name,
                     script (with_pretrained_bert_model name args)
                     = script args).
  { intros Hsome name.
    destruct args as [? ? ? ? ? ? ? ? ? ? ? ? ? ? ? ? checkpoint ?].
    cbn in Hsome. destruct checkpoint; [reflexivity | congruence]. }
  unfold model_construction.
  run_main H. rewrite Hparse in H.
  run_cases H.
  all: injection H as <- <-.
  all: split;
    [ cbn [factories flat_map app model_entries filter entry_stage stage_of];
      unfold then_call, no_more;
      repeat first [ reflexivity
                   | do 2 eexists; split; [reflexivity | cbv beta iota] ]
    |].
  all: split;
    [ repeat (apply Forall_cons;
              [ cbn [model_call_as_configured];
                try match goal with
                    | E : bert_checkpoint _ = _ |- _ => rewrite E
                    end;
                first [ exact I
                      | reflexivity
                      | split; [first [reflexivity | discriminate]
                               | reflexivity] ]
              |]);
      apply Forall_nil
    |].
  all: split; [each_call reflexivity |].
  all: split; [each_call reflexivity |].
  all: split; [| exact Hframe].
  all: intros Hout; first [discriminate Hout | idtac];
    cbv beta iota; repeat eexists.
Qed.

Lemma bert_checkpoint_branch_witness :
  ((scenario_world from_checkpoint _ [] (parse_args parser)
    = inr (given_args from_checkpoint)
    /\ snd (run (scenario_world from_checkpoint) main) = Returned tt)
   /\ exists t t' f m m',
        model_entries (fst (run (scenario_world from_checkpoint) main)) =
          [Entry (SentencePieceTokenizer "tokenizer.model") (inr t);
           Entry (add_special_tokens t ["[MASK]"; "[CLS]"; "[SEP]"]) (inr t');
           Entry (BERT (config_filename (Some "bert_config.json")) f) (inr m);
           Entry (restore_from m "bert.pt") (inr m')])
  /\ ((scenario_world default_run _ [] (parse_args parser) = inr default_args
       /\ snd (run (scenario_world default_run) main) = Returned tt)
      /\ exists t f m,
           model_entries (fst (run (scenario_world default_run) main)) =
             [Entry (NemoBertTokenizer "bert-base-cased") (inr t);
              Entry (BERT (pretrained_model_name "bert-base-cased") f)
                (inr m)]).
Proof.
  assert (Eout : snd (run (scenario_world from_checkpoint) main) = Returned tt)
    by (vm_compute; reflexivity).
  assert (Eout' : snd (run (scenario_world default_run) main) = Returned tt)
    by (vm_compute; reflexivity).
  split.
  - split; [split; [reflexivity | exact Eout] |].
    destruct (bert_checkpoint_branch (scenario_world from_checkpoint)
                (given_args from_checkpoint)
                (fst (run (scenario_world from_checkpoint) main))
                (snd (run (scenario_world from_checkpoint) main)))
      as (_ & _ & _ & _ & Hshape & _);
      [reflexivity | vm_compute; reflexivity |].
    exact (Hshape Eout).
  - split; [split; [reflexivity | exact Eout'] |].
    destruct (bert_checkpoint_branch (scenario_world default_run) default_args
                (fst (run (scenario_world default_run) main))
                (snd (run (scenario_world default_run) main)))
      as (_ & _ & _ & _ & Hshape & _);
      [reflexivity | vm_compute; reflexivity |].
    exact (Hshape Eout').
Defined.

(** ** The padded vocabulary size is dead *)

Lemma tokenizers_app (a b : trace) :
  tokenizers (a ++ b) = tokenizers a ++ tokenizers b.
Proof. apply flat_map_app. Qed.

(** The tokenizer that [setup] returns is one the environment handed out
    during [setup]. *)
Lemma setup_tokenizer_recorded (w : world) (args : Args) (past h : trace)
  (s : Setup) :
  run_from w (setup args) past = (h, Returned s) ->
  In (tokenizer s) (tokenizers h).
Proof.
  intros H. unfold setup in H. run_exec H.
  all: injection H as <- <-.
  all: rewrite !tokenizers_app; cbn [tokenizers flat_map app tokenizer].
  all: rewrite !in_app_iff; cbn [In]; intuition.
Qed.

(** Taking line 87 out changes no run in which its division returns. *)
Lemma line_87_removable (w : world) :
  Forall (fun t => exists padded,
                     vocab_size (tokenizer_vocab_size t) = inr padded)
         (tokenizers (fst (run w main_without_vocab_size))) ->
  run w main = run w main_without_vocab_size.
Proof.
  unfold run, main, main_without_vocab_size, script,
    script_without_vocab_size.
  cbn [run_from bind call].
  destruct (w Args [] (parse_args parser)) as [e | args];
    cbn [run_from bind app]; [reflexivity |].
  set (past := [Entry (parse_args parser) (inr args)]).
  rewrite !run_from_bind.
  destruct (run_from w (setup args) past) as [h [s | o e]] eqn:Hsetup;
    [| reflexivity].
  intros Hok.
  destruct (run_from_extends w (pipelines args s) h) as [more Emore].
  rewrite Emore, tokenizers_app in Hok.
  apply Forall_app in Hok. destruct Hok as [Hok _].
  rewrite Forall_forall in Hok.
  destruct (Hok _ (setup_tokenizer_recorded _ _ _ _ _ Hsetup)) as [padded E].
  rewrite run_from_bind, E. reflexivity.
Qed.

(** The quotient of a machine integer by 8 is within the range of
    floats. *)
Lemma truediv_pos_8_returns (v : Z) :
  0 < v <= 2 ^ 63 ->
  exists m e, PyNum.truediv_pos v 8 = Some (m, e).
Proof.
  intros [Hv Hb]. unfold PyNum.truediv_pos.
  set (e := PyNum.quotient_exponent v 8).
  assert (He : e <= 8).
  { unfold e, PyNum.quotient_exponent, PyNum.prec, PyNum.emin.
    assert (Z.log2 v <= 63).
    { destruct (Z.eq_dec v (2 ^ 63)) as [-> | Hne]; [reflexivity |].
      assert (Z.log2 v < 63) by (apply Z.log2_lt_pow2; lia). lia. }
    change (Z.log2 8) with 3.
    destruct (2 ^ 53 <=? PyNum.scaled_floor v 8 (Z.log2 v - 3 - 53)); lia. }
  unfold PyNum.scaled.
  destruct (0 <=? e) eqn:E.
  - apply Z.leb_le in E.
    assert (HP : 1 <= 2 ^ e) by (apply PyNumFacts.pow2_ge_1; assumption).
    assert (HP8 : 2 ^ e <= 2 ^ 8) by (apply Z.pow_le_mono_r; lia).
    set (P := 2 ^ e) in *.
    assert (Hq : 0 <= v / (8 * P) <= v).
    { split; [apply Z.div_pos; lia |].
      apply Z.div_le_upper_bound; [lia | nia]. }
    assert (Hm : 0 <= PyNum.round_half_even v (8 * P) <= v + 1).
    { unfold PyNum.round_half_even.
      destruct (2 * (v mod (8 * P)) <? 8 * P); [lia |].
      destruct (8 * P <? 2 * (v mod (8 * P))); [lia |].
      destruct (Z.even (v / (8 * P))); lia. }
    assert (Hlt : PyNum.round_half_even v (8 * P) * P < 2 ^ PyNum.emax).
    { assert (2 ^ 72 < 2 ^ PyNum.emax)
        by (apply Z.pow_lt_mono_r; unfold PyNum.emax; lia).
      change (2 ^ 8) with 256 in HP8.
      change (2 ^ 63) with 9223372036854775808 in Hb.
      change (2 ^ 72) with 4722366482869645213696 in *.
      nia. }
    apply Z.leb_gt in Hlt. rewrite Hlt. eauto.
  - apply Z.leb_gt in E.
    rewrite (Z.pow_neg_r 2 e) by lia. rewrite Z.mul_0_r.
    replace (2 ^ PyNum.emax <=? 0) with false; [eauto |].
    symmetry. apply Z.leb_gt. apply Z.pow_pos_nonneg; unfold PyNum.emax; lia.
Qed.

Lemma vocab_size_returns (v : Z) :
  - 2 ^ 63 <= v < 2 ^ 63 -> exists padded, vocab_size v = inr padded.
Proof.
  intros Hv. unfold vocab_size, PyNum.truediv. change (8 =? 0) with false.
  cbv iota.
  destruct (v =? 0) eqn:Ev; [eexists; reflexivity |].
  apply Z.eqb_neq in Ev.
  destruct (truediv_pos_8_returns (Z.abs v)) as (m & e & E); [lia |].
  change (Z.abs 8) with 8. rewrite E.
  destruct (m =? 0); cbn [ebind PyNum.ceil]; eexists; reflexivity.
Qed.

(** C8: the padded vocabulary size is never read.  For every
    environment whose tokenizers report a machine integer (below 2^63
    in magnitude) as their vocabulary size, the script with line 87
    taken out makes the same calls, with the same arguments, in the
    same order, and ends the same way. *)
Theorem vocab_size_never_read (w : world) :
  Forall (fun t => - 2 ^ 63 <= tokenizer_vocab_size t < 2 ^ 63)
         (tokenizers (fst (run w main_without_vocab_size))) ->
  run w main = run w main_without_vocab_size.
Proof.
  intros Hint. apply line_87_removable.
  apply (Forall_impl _ (fun t => vocab_size_returns (tokenizer_vocab_size t))).
  exact Hint.
Qed.

Lemma vocab_size_never_read_witness :
  Forall (fun t => - 2 ^ 63 <= tokenizer_vocab_size t < 2 ^ 63)
         (tokenizers (fst (run (scenario_world from_checkpoint)
                             main_without_vocab_size)))
  /\ run (scenario_world from_checkpoint) main
     = run (scenario_world from_checkpoint) main_without_vocab_size.
Proof.
  assert (Hint : Forall
                   (fun t => - 2 ^ 63 <= tokenizer_vocab_size t < 2 ^ 63)
                   (tokenizers (fst (run (scenario_world from_checkpoint)
                                       main_without_vocab_size)))).
  { assert (E : tokenizers (fst (run (scenario_world from_checkpoint)
                                   main_without_vocab_size))
                = [{| tokenizer_id := 5; tokenizer_vocab_size := 32000 |};
                   {| tokenizer_id := 5; tokenizer_vocab_size := 32003 |}])
      by (vm_compute; reflexivity).
    rewrite E. repeat (apply Forall_cons; [cbn; lia |]). apply Forall_nil. }
  split; [exact Hint |].
  exact (vocab_size_never_read (scenario_world from_checkpoint) Hint).
Defined.

(** * Further properties of the script *)

(** ** More on the arithmetic of line 157 *)

(** [int(a / b)] cuts towards zero, whatever the signs. *)
Lemma int_of_truediv_quot (n d : Z) :
  - 2 ^ 53 <= n <= 2 ^ 53 -> d <> 0 ->
  ebind (PyNum.truediv n d) PyNum.int_of_float = inr (Z.quot n d).
Proof.
  intros Hn Hd. unfold PyNum.truediv.
  destruct (d =? 0) eqn:Ed; [apply Z.eqb_eq in Ed; contradiction |].
  destruct (n =? 0) eqn:En.
  - apply Z.eqb_eq in En. subst n. rewrite Z.quot_0_l by assumption.
    reflexivity.
  - apply Z.eqb_neq in En.
    destruct (PyNumFacts.truediv_pos_trunc (Z.abs n) (Z.abs d))
      as (m & e & -> & Hm & Hcut); [lia | lia |].
    rewrite Z.quot_div by assumption.
    assert (Hmag : (if m =? 0 then 0 else PyNum.trunc_mag (Z.to_pos m) e)
                   = Z.abs n / Z.abs d).
    { destruct (m =? 0) eqn:Em.
      - apply Z.eqb_eq in Em. subst m. rewrite <- Hcut. unfold PyNum.cut.
        destruct (0 <=? e); [rewrite Z.mul_0_l |]; reflexivity.
      - apply Z.eqb_neq in Em. unfold PyNum.trunc_mag.
        rewrite Z2Pos.id by lia. exact Hcut. }
    rewrite <- Hmag.
    destruct (m =? 0) eqn:Em; cbn [ebind PyNum.int_of_float].
    + rewrite Z.mul_0_r. reflexivity.
    + f_equal.
      destruct (n <? 0) eqn:Sn, (d <? 0) eqn:Sd; cbn [xorb];
        try apply Z.ltb_lt in Sn; try apply Z.ltb_ge in Sn;
        try apply Z.ltb_lt in Sd; try apply Z.ltb_ge in Sd.
      * rewrite !Z.sgn_neg by lia. ring.
      * rewrite Z.sgn_neg, Z.sgn_pos by lia. ring.
      * rewrite Z.sgn_pos, Z.sgn_neg by lia. ring.
      * rewrite !Z.sgn_pos by lia. ring.
Qed.

Lemma steps_per_epoch_zero_divisor (n b g : Z) :
  b * g = 0 ->
  steps_per_epoch n b g = inl (Exn ZeroDivisionError "division by zero").
Proof.
  intros H. unfold steps_per_epoch, PyNum.truediv. rewrite H. reflexivity.
Qed.

(** X1: for a training-set size of magnitude at most 2^53 and a
    non-zero [batch_size * num_gpus], [steps_per_epoch] is the quotient
    cut towards zero; with a negative divisor that is not the floor. *)
Theorem steps_per_epoch_truncates (n b g : Z) :
  - 2 ^ 53 <= n <= 2 ^ 53 -> b * g <> 0 ->
  steps_per_epoch n b g = inr (Z.quot n (b * g)).
Proof.
  intros Hn Hd. unfold steps_per_epoch. apply int_of_truediv_quot; assumption.
Qed.

Lemma steps_per_epoch_truncates_witness :
  (- 2 ^ 53 <= 7 <= 2 ^ 53 /\ -2 * 1 <> 0)
  /\ steps_per_epoch 7 (-2) 1 = inr (-3)
  /\ 7 / (-2 * 1) = -4.
Proof.
  split; [split; lia |].
  split; [| reflexivity].
  exact (steps_per_epoch_truncates 7 (-2) 1 ltac:(lia) ltac:(lia)).
Defined.

(** X2: [steps_per_epoch] raises ZeroDivisionError exactly when
    [batch_size * num_gpus] is zero; any other exception it raises is
    an OverflowError, and up to a size of 2^53 it raises none. *)
Theorem steps_per_epoch_zero_division (n b g : Z) :
  (b * g = 0 <->
   steps_per_epoch n b g = inl (Exn ZeroDivisionError "division by zero"))
  /\ (forall e, steps_per_epoch n b g = inl e ->
      b * g <> 0 -> exn_cls e = OverflowError /\ 2 ^ 53 < Z.abs n).
Proof.
  split; [split |].
  - apply steps_per_epoch_zero_divisor.
  - unfold steps_per_epoch, PyNum.truediv.
    destruct (b * g =? 0) eqn:E; [apply Z.eqb_eq in E; intros _; exact E |].
    destruct (n =? 0); [discriminate |].
    destruct (PyNum.truediv_pos (Z.abs n) (Z.abs (b * g))) as [[m x] |];
      [| discriminate].
    destruct (m =? 0); discriminate.
  - intros e He Hd.
    destruct (Z_le_gt_dec (Z.abs n) (2 ^ 53)) as [Hsmall | Hbig].
    + unfold steps_per_epoch in He.
      rewrite int_of_truediv_quot in He by lia. discriminate He.
    + split; [| lia].
      unfold steps_per_epoch, PyNum.truediv in He.
      destruct (b * g =? 0) eqn:E; [apply Z.eqb_eq in E; contradiction |].
      destruct (n =? 0); [discriminate |].
      destruct (PyNum.truediv_pos (Z.abs n) (Z.abs (b * g))) as [[m x] |].
      * destruct (m =? 0); discriminate.
      * injection He as <-. reflexivity.
Qed.

(** ** Construction of the modules *)

(** X3: the factory is only ever asked for the PyTorch backend, with
    [--local_rank] passed on, at optimization level mxprO1 under
    [--mixed_precision] and mxprO0 otherwise; a successful run asks
    once. *)
Theorem factory_configuration (w : world) (args : Args) (tr : trace)
  (out : outcome unit) :
  w _ [] (parse_args parser) = inr args ->
  run w main = (tr, out) ->
  Forall (fun c => c = (PyTorch, local_rank args,
                        (if mixed_precision args then mxprO1 else mxprO0),
                        device args))
         (factory_calls tr)
  /\ (out = Returned tt -> List.length (factory_calls tr) = 1%nat).
Proof.
  intros Hparse H. run_main H. rewrite Hparse in H.
  run_cases H.
  all: injection H as <- <-.
  all: split; [each_call reflexivity |].
  all: intros Hout; first [discriminate Hout | reflexivity].
Qed.

Lemma factory_configuration_witness :
  (scenario_world default_run _ [] (parse_args parser) = inr default_args)
  /\ Forall (fun c => c = (PyTorch, local_rank default_args,
                           (if mixed_precision default_args
                            then mxprO1 else mxprO0),
                           device default_args))
            (factory_calls (fst (run (scenario_world default_run) main))).
Proof.
  split; [reflexivity |].
  destruct (factory_configuration (scenario_world default_run) default_args
              (fst (run (scenario_world default_run) main))
              (snd (run (scenario_world default_run) main)))
    as [Hcalls _]; [reflexivity | vm_compute; reflexivity |].
  exact Hcalls.
Defined.

(** X4: both data layers, the evaluation one included, are built with
    [is_training=True], [shuffle=False] and [num_workers=0], on
    [--batch_size], [--max_seq_length] and [--local_rank], on the one
    factory and on the tokenizer in its last state (after
    [add_special_tokens] under [--bert_checkpoint]); the first reads
    train.txt and the second dev.txt of [--data_dir]. *)
Theorem data_layers_configuration (w : world) (args : Args) (tr : trace)
  (out : outcome unit) :
  w _ [] (parse_args parser) = inr args ->
  run w main = (tr, out) ->
  Forall (fun c =>
            dlc_is_training c = true
            /\ dlc_shuffle c = false
            /\ dlc_num_workers c = 0
            /\ dlc_batch_size c = batch_size args
            /\ dlc_max_seq_length c = max_seq_length args
            /\ dlc_local_rank c = local_rank args
            /\ Some (dlc_tokenizer c) = final_tokenizer tr
            /\ [dlc_factory c] = factories tr)
         (data_layer_calls tr)
  /\ initial_part (map dlc_path_to_data (data_layer_calls tr))
       [os_path_join (data_dir args) "train.txt";
        os_path_join (data_dir args) "dev.txt"]
  /\ (out = Returned tt -> List.length (data_layer_calls tr) = 2%nat).
Proof.
  intros Hparse H. run_main H. rewrite Hparse in H.
  run_cases H.
  all: injection H as <- <-.
  all: split; [each_call ltac:(repeat split; reflexivity) | split].
  all: try (eexists; reflexivity).
  all: intros Hout; first [discriminate Hout | reflexivity].
Qed.

Lemma data_layers_configuration_witness :
  (scenario_world from_checkpoint _ [] (parse_args parser)
   = inr (given_args from_checkpoint))
  /\ initial_part
       (map dlc_path_to_data
          (data_layer_calls (fst (run (scenario_world from_checkpoint) main))))
       [os_path_join (data_dir (given_args from_checkpoint)) "train.txt";
        os_path_join (data_dir (given_args from_checkpoint)) "dev.txt"].
Proof.
  split; [reflexivity |].
  destruct (data_layers_configuration (scenario_world from_checkpoint)
              (given_args from_checkpoint)
              (fst (run (scenario_world from_checkpoint) main))
              (snd (run (scenario_world from_checkpoint) main)))
    as (_ & Hpaths & _); [reflexivity | vm_compute; reflexivity |].
  exact Hpaths.
Defined.

(** X5: the loss module is sized by the hidden size of the encoder in
    its last state and by the number of tag ids of the training data
    layer, with [--classification_dropout], on the one factory; a
    successful run builds one. *)
Theorem loss_configuration (w : world) (args : Args) (tr : trace)
  (out : outcome unit) :
  w _ [] (parse_args parser) = inr args ->
  run w main = (tr, out) ->
  Forall (fun c : Z * Z * spec_float * Factory =>
            let '(d_model, num_labels, dropout, factory) := c in
            Some d_model
            = option_map bert_config_hidden_size (final_encoder tr)
            /\ Some num_labels
               = option_map (fun l => tag_ids_len (dataset_tag_ids l))
                   (hd_error (data_layers tr))
            /\ dropout = classification_dropout args
            /\ [factory] = factories tr)
         (loss_calls tr)
  /\ (out = Returned tt -> List.length (loss_calls tr) = 1%nat).
Proof.
  intros Hparse H. run_main H. rewrite Hparse in H.
  run_cases H.
  all: injection H as <- <-.
  all: split; [each_call ltac:(repeat split; reflexivity) |].
  all: intros Hout; first [discriminate Hout | reflexivity].
Qed.

Lemma loss_configuration_witness :
  (scenario_world from_checkpoint _ [] (parse_args parser)
   = inr (given_args from_checkpoint)
   /\ snd (run (scenario_world from_checkpoint) main) = Returned tt)
  /\ List.length
       (loss_calls (fst (run (scenario_world from_checkpoint) main)))
     = 1%nat.
Proof.
  assert (Eout : snd (run (scenario_world from_checkpoint) main) = Returned tt)
    by (vm_compute; reflexivity).
  split; [split; [reflexivity | exact Eout] |].
  destruct (loss_configuration (scenario_world from_checkpoint)
              (given_args from_checkpoint)
              (fst (run (scenario_world from_checkpoint) main))
              (snd (run (scenario_world from_checkpoint) main)))
    as [_ Hone]; [reflexivity | vm_compute; reflexivity |].
  exact (Hone Eout).
Defined.

(** ** The two pipelines *)

(** X6: in both pipelines every encoder call is fed the ids, type ids
    and mask of the latest data-layer call, and every loss call the
    latest encoder output with the labels and mask of that same
    data-layer call, so no tensor of the training pipeline enters the
    evaluation pipeline; both pipelines run through the one encoder, in
    its last state, and the one loss module; the data layers are called
    in the order they were built. *)
Theorem pipelines_wiring (w : world) (args : Args) (tr : trace)
  (out : outcome unit) :
  w _ [] (parse_args parser) = inr args ->
  run w main = (tr, out) ->
  wired None None tr
  /\ Forall (fun m => Some m = final_encoder tr) (encoders_called tr)
  /\ Forall (fun l => [l] = losses tr) (losses_called tr)
  /\ initial_part (layers_called tr) (data_layers tr)
  /\ (out = Returned tt ->
      List.length (layers_called tr) = 2%nat
      /\ List.length (encoders_called tr) = 2%nat
      /\ List.length (losses_called tr) = 2%nat).
Proof.
  intros Hparse H. run_main H. rewrite Hparse in H.
  run_cases H.
  all: injection H as <- <-.
  all: split; [cbn [wired]; repeat split; reflexivity |].
  all: split; [each_call reflexivity |].
  all: split; [each_call reflexivity |].
  all: split; [eexists; reflexivity |].
  all: intros Hout; first [discriminate Hout | repeat split; reflexivity].
Qed.

Lemma pipelines_wiring_witness :
  (scenario_world default_run _ [] (parse_args parser) = inr default_args)
  /\ wired None None (fst (run (scenario_world default_run) main)).
Proof.
  split; [reflexivity |].
  destruct (pipelines_wiring (scenario_world default_run) default_args
              (fst (run (scenario_world default_run) main))
              (snd (run (scenario_world default_run) main)))
    as [Hwired _]; [reflexivity | vm_compute; reflexivity |].
  exact Hwired.
Defined.

(** ** Callbacks and the training action *)

(** X7: the logging callback watches the training loss and prints it;
    the evaluation callback watches the logits of the evaluation
    pipeline and the sequence ids of the evaluation data layer, maps
    them with the tag ids of the training data layer, writes to
    [--output_filename] and evaluates every [steps_per_epoch] steps;
    both get the tensorboard writer opened on
    [--tensorboard_filename], if one was opened. *)
Theorem callbacks_configuration (w : world) (args : Args) (tr : trace)
  (out : outcome unit) :
  w _ [] (parse_args parser) = inr args ->
  run w main = (tr, out) ->
  Forall (fun c : list Tensor * Lambda * Lambda * option SummaryWriterObj =>
            let '(tensors, print_func, get_tb_values, writer) := c in
            Some tensors
            = option_map (fun o => [fst o]) (hd_error (loss_outputs tr))
            /\ print_func = print_loss
            /\ get_tb_values = loss_tb_values
            /\ writer = hd_error (summary_writers tr))
         (logger_calls tr)
  /\ Forall (fun c : list Tensor * Lambda * Lambda
                     * option SummaryWriterObj * Z =>
               let '(tensors, on_iter, on_done, writer, eval_step) := c in
               match nth_error (data_layers tr) 0,
                     nth_error (data_layers tr) 1,
                     nth_error (layer_outputs tr) 1,
                     nth_error (loss_outputs tr) 1,
                     train_data_sizes tr with
               | Some train_layer, Some eval_layer,
                 Some (_, _, _, _, eval_seq_ids), Some (_, eval_logits),
                 [n] =>
                   tensors = [eval_logits; eval_seq_ids]
                   /\ on_iter
                      = eval_iter eval_layer (dataset_tag_ids train_layer)
                   /\ on_done
                      = eval_epochs_done (dataset_tag_ids train_layer)
                          (output_filename args)
                   /\ steps_per_epoch n (batch_size args) (num_gpus args)
                      = inr eval_step
               | _, _, _, _, _ => False
               end
               /\ writer = hd_error (summary_writers tr))
            (evaluator_calls tr)
  /\ Forall (eq (tensorboard_filename args)) (writer_logdirs tr)
  /\ (out = Returned tt ->
      List.length (logger_calls tr) = 1%nat
      /\ List.length (evaluator_calls tr) = 1%nat).
Proof.
  intros Hparse H. run_main H. rewrite Hparse in H.
  run_cases H.
  all: injection H as <- <-.
  all: split; [each_call ltac:(repeat split; reflexivity) |].
  all: split;
    [each_call ltac:(repeat split; first [reflexivity | assumption]) |].
  all: split; [each_call reflexivity |].
  all: intros Hout; first [discriminate Hout | split; reflexivity].
Qed.

Lemma callbacks_configuration_witness :
  (scenario_world default_run _ [] (parse_args parser) = inr default_args)
  /\ Forall (eq (tensorboard_filename default_args))
       (writer_logdirs (fst (run (scenario_world default_run) main))).
Proof.
  split; [reflexivity |].
  destruct (callbacks_configuration (scenario_world default_run) default_args
              (fst (run (scenario_world default_run) main))
              (snd (run (scenario_world default_run) main)))
    as (_ & _ & Hdirs & _); [reflexivity | vm_compute; reflexivity |].
  exact Hdirs.
Defined.

(** X8: the training action optimizes the training loss alone, with
    the logging callback and the evaluation callback in that order, on
    [--optimizer_kind], [--num_epochs] and [--lr], on the one factory. *)
Theorem train_action_configuration (w : world) (args : Args) (tr : trace)
  (out : outcome unit) :
  w _ [] (parse_args parser) = inr args ->
  run w main = (tr, out) ->
  Forall (fun c : Factory * list Tensor * list Callback * string * Z
                  * spec_float =>
            let '(factory, tensors, cbs, optimizer, epochs, rate) := c in
            [factory] = factories tr
            /\ Some tensors
               = option_map (fun o => [fst o]) (hd_error (loss_outputs tr))
            /\ cbs = callbacks tr
            /\ List.length cbs = 2%nat
            /\ optimizer = optimizer_kind args
            /\ epochs = num_epochs args
            /\ rate = lr args)
         (train_actions tr).
Proof.
  intros Hparse H. run_main H. rewrite Hparse in H.
  run_cases H.
  all: injection H as <- <-.
  all: each_call ltac:(repeat split; reflexivity).
Qed.

Lemma train_action_configuration_witness :
  (scenario_world default_run _ [] (parse_args parser) = inr default_args)
  /\ Forall (fun c : Factory * list Tensor * list Callback * string * Z
                     * spec_float =>
               let '(factory, tensors, cbs, optimizer, epochs, rate) := c in
               [factory]
               = factories (fst (run (scenario_world default_run) main))
               /\ Some tensors
                  = option_map (fun o => [fst o])
                      (hd_error
                         (loss_outputs
                            (fst (run (scenario_world default_run) main))))
               /\ cbs = callbacks (fst (run (scenario_world default_run) main))
               /\ List.length cbs = 2%nat
               /\ optimizer = optimizer_kind default_args
               /\ epochs = num_epochs default_args
               /\ rate = lr default_args)
        (train_actions (fst (run (scenario_world default_run) main))).
Proof.
  split; [reflexivity |].
  apply (train_action_configuration (scenario_world default_run) default_args
           (fst (run (scenario_world default_run) main))
           (snd (run (scenario_world default_run) main)) eq_refl).
  vm_compute. reflexivity.
Defined.

(** ** Edge cases of the batch arithmetic *)

Lemma steps_per_epoch_small (n b g : Z) :
  0 <= n <= 2 ^ 53 -> 0 < b -> 0 < g -> n < b * g ->
  steps_per_epoch n b g = inr 0.
Proof.
  intros Hn Hb Hg Hlt. unfold steps_per_epoch.
  rewrite int_of_truediv by (try assumption; nia).
  rewrite Z.div_small by lia. reflexivity.
Qed.

(** X9: with [batch_size * num_gpus = 0] no run completes and neither
    the evaluation callback nor a schedule nor the training action is
    ever reached: once [len(train_data_layer)] has answered, the run
    ends in ZeroDivisionError, after the encoder and both pipelines
    have been built. *)
Theorem zero_batch_raises (w : world) (args : Args) (tr : trace)
  (out : outcome unit) :
  w _ [] (parse_args parser) = inr args ->
  run w main = (tr, out) ->
  batch_size args * num_gpus args = 0 ->
  out <> Returned tt
  /\ evaluator_calls tr = []
  /\ schedules tr = []
  /\ train_calls tr = 0%nat
  /\ (train_data_sizes tr <> [] ->
      out = Raised Operator (Exn ZeroDivisionError "division by zero")
      /\ List.length (layers_called tr) = 2%nat).
Proof.
  intros Hparse H Hzero. run_main H. rewrite Hparse in H.
  run_cases H.
  all: injection H as <- <-.
  all: try match goal with
           | E : steps_per_epoch _ _ _ = _ |- _ =>
               rewrite (steps_per_epoch_zero_divisor _ _ _ Hzero) in E;
               first [discriminate E | injection E as <-]
           end.
  all: split; [discriminate |].
  all: split; [reflexivity |].
  all: split; [reflexivity |].
  all: split; [reflexivity |].
  all: intros Hsize;
    first [ split; reflexivity | exfalso; apply Hsize; reflexivity ].
Qed.

Lemma zero_batch_raises_witness :
  (scenario_world zero_batch _ [] (parse_args parser)
   = inr (given_args zero_batch)
   /\ batch_size (given_args zero_batch) * num_gpus (given_args zero_batch)
      = 0)
  /\ snd (run (scenario_world zero_batch) main) <> Returned tt.
Proof.
  split; [split; reflexivity |].
  destruct (zero_batch_raises (scenario_world zero_batch)
              (given_args zero_batch)
              (fst (run (scenario_world zero_batch) main))
              (snd (run (scenario_world zero_batch) main)))
    as [Hnot _]; [reflexivity | vm_compute; reflexivity | reflexivity |].
  exact Hnot.
Defined.

(** X10: a training set of at most 2^53 examples that is smaller than
    one batch over all GPUs is not refused.  Once
    [len(train_data_layer)] has answered, the script raises no
    arithmetic error and goes on to print "steps_per_epoch = 0"; every
    evaluation callback is built with [eval_step = 0] and every
    schedule with 0 total steps; and unless a call fails the run ends
    either in the training driver, invoked once, or, for an
    unrecognized policy, in the ValueError of line 178. *)
Theorem short_train_set_is_accepted (w : world) (args : Args) (tr : trace)
  (out : outcome unit) (n : Z) :
  w _ [] (parse_args parser) = inr args ->
  run w main = (tr, out) ->
  0 < batch_size args -> 0 < num_gpus args ->
  train_data_sizes tr = [n] ->
  0 <= n <= 2 ^ 53 -> n < batch_size args * num_gpus args ->
  In [PStr "steps_per_epoch ="; PInt 0] (prints tr)
  /\ (forall e, out <> Raised Operator e)
  /\ Forall (fun c => snd c = 0) (evaluator_calls tr)
  /\ Forall (fun s => s = Warmup 0 (lr_warmup_proportion args)
                      \/ s = Square 0 \/ s = Cosine 0)
            (schedules tr)
  /\ (last_failure tr = None ->
      In (lr_policy args) lr_policies ->
      out = Returned tt
      /\ List.length (evaluator_calls tr) = 1%nat
      /\ List.length (schedules tr) = 1%nat
      /\ train_calls tr = 1%nat)
  /\ (last_failure tr = None ->
      ~ In (lr_policy args) lr_policies ->
      out = Raised Script invalid_lr_policy).
Proof.
  intros Hparse H Hb Hg. run_main H. rewrite Hparse in H.
  run_cases H.
  all: injection H as <- <-; policy_tests; intros Hsize Hn Hlt.
  all: cbn [train_data_sizes flat_map app] in Hsize;
    first [discriminate Hsize | injection Hsize as <-].
  all: match goal with
       | E : steps_per_epoch _ _ _ = _ |- _ =>
           rewrite (steps_per_epoch_small _ _ _ Hn Hb Hg Hlt) in E;
           first [discriminate E | injection E as <-]
       end.
  all: split;
    [cbn [prints flat_map app In]; repeat first [left; reflexivity | right] |].
  all: split; [intros e'; discriminate |].
  all: split; [each_call reflexivity |].
  all: split; [each_call ltac:(rewrite ?Z.mul_0_r; auto) |].
  all: unfold lr_policies; cbn [In].
  all: split; intros Hlast Hpolicy; cbn in Hlast; try discriminate Hlast.
  all: try (repeat match goal with u : unit |- _ => destruct u end;
            repeat split; reflexivity).
  all: try (destruct Hpolicy as [Hok | [Hok | [Hok | []]]]; symmetry in Hok;
            contradiction).
  all: exfalso; apply Hpolicy;
    match goal with E : lr_policy _ = _ |- _ => rewrite E end;
    repeat first [left; reflexivity | right].
Qed.

Lemma short_train_set_is_accepted_witness :
  (scenario_world tiny_train_set _ [] (parse_args parser) = inr default_args
   /\ 0 < batch_size default_args
   /\ 0 < num_gpus default_args
   /\ train_data_sizes (fst (run (scenario_world tiny_train_set) main)) = [20]
   /\ 0 <= 20 <= 2 ^ 53
   /\ 20 < batch_size default_args * num_gpus default_args)
  /\ snd (run (scenario_world tiny_train_set) main) = Returned tt
  /\ List.length (evaluator_calls
                    (fst (run (scenario_world tiny_train_set) main))) = 1%nat
  /\ List.length (schedules (fst (run (scenario_world tiny_train_set) main)))
     = 1%nat
  /\ train_calls (fst (run (scenario_world tiny_train_set) main)) = 1%nat.
Proof.
  assert (Esize : train_data_sizes
                    (fst (run (scenario_world tiny_train_set) main)) = [20])
    by (vm_compute; reflexivity).
  assert (Elast : last_failure (fst (run (scenario_world tiny_train_set) main))
                  = None)
    by (vm_compute; reflexivity).
  split.
  { split; [reflexivity |]. split; [reflexivity |]. split; [reflexivity |].
    split; [exact Esize |]. split; [lia | reflexivity]. }
  destruct (short_train_set_is_accepted (scenario_world tiny_train_set)
              default_args
              (fst (run (scenario_world tiny_train_set) main))
              (snd (run (scenario_world tiny_train_set) main)) 20)
    as (_ & _ & _ & _ & Hgoes & _);
    [ reflexivity | vm_compute; reflexivity | reflexivity | reflexivity
    | exact Esize | lia | reflexivity | ].
  apply (Hgoes Elast). cbn. left. reflexivity.
Defined.

(** ** The dataset files *)

(** X11: the only file the script tests is train.txt, once; dev.txt is
    first touched when the evaluation data layer is built, so a failure
    there ends the run only after the tokenizer, the encoder, the
    training data layer and the loss module have been built and the
    training pipeline connected. *)
Theorem only_train_file_is_tested (w : world) (args : Args) (tr : trace)
  (out : outcome unit) :
  w _ [] (parse_args parser) = inr args ->
  run w main = (tr, out) ->
  isfile_paths tr = [os_path_join (data_dir args) "train.txt"]
  /\ (forall e,
        last_failure tr = Some e ->
        data_layer_paths tr = [os_path_join (data_dir args) "train.txt";
                               os_path_join (data_dir args) "dev.txt"] ->
        List.length (data_layers tr) = 1%nat ->
        out = Raised External e
        /\ phases (stages tr) =
             [StParse; StValidate; StModel; StBuild; StConnect; StBuild]).
Proof.
  intros Hparse H. run_main H. rewrite Hparse in H.
  run_cases H.
  all: injection H as <- <-.
  all: split; [reflexivity |].
  all: intros e' Hlast Hpaths Hlayers.
  all: cbn [data_layer_paths] in Hpaths;
    cbn [data_layers flat_map app List.length] in Hlayers.
  all: try discriminate Hpaths.
  all: try discriminate Hlayers.
  all: cbn in Hlast; injection Hlast as <-; split; reflexivity.
Qed.

Lemma only_train_file_is_tested_witness :
  (no_dev_file _ [] (parse_args parser) = inr default_args
   /\ last_failure (fst (run no_dev_file main))
      = Some (Exn FileNotFoundError "./conll2003/dev.txt")
   /\ List.length (data_layers (fst (run no_dev_file main))) = 1%nat)
  /\ snd (run no_dev_file main)
     = Raised External (Exn FileNotFoundError "./conll2003/dev.txt")
  /\ phases (stages (fst (run no_dev_file main))) =
       [StParse; StValidate; StModel; StBuild; StConnect; StBuild].
Proof.
  assert (Hlast : last_failure (fst (run no_dev_file main))
                  = Some (Exn FileNotFoundError "./conll2003/dev.txt"))
    by (vm_compute; reflexivity).
  assert (Hlayers : List.length (data_layers (fst (run no_dev_file main)))
                    = 1%nat)
    by (vm_compute; reflexivity).
  split; [split; [reflexivity | split; assumption] |].
  destruct (only_train_file_is_tested no_dev_file default_args
              (fst (run no_dev_file main)) (snd (run no_dev_file main)))
    as [_ Hdev]; [reflexivity | vm_compute; reflexivity |].
  apply (Hdev _ Hlast); [vm_compute; reflexivity | exact Hlayers].
Defined.

(** ** What the script prints *)

(** X12: a successful run prints, in this order, "Loading training
    data...", "Loading eval data..." and "steps_per_epoch =" with the
    number of steps it computed, preceded by "Tensorboard is not
    available." exactly when no writer was opened. *)
Theorem printed_lines (w : world) (args : Args) (tr : trace) :
  w _ [] (parse_args parser) = inr args ->
  run w main = (tr, Returned tt) ->
  exists n steps,
    train_data_sizes tr = [n]
    /\ steps_per_epoch n (batch_size args) (num_gpus args) = inr steps
    /\ prints tr =
         (match summary_writers tr with
          | [] => [[PStr "Tensorboard is not available."]]
          | _ :: _ => []
          end)
         ++ [[PStr "Loading training data..."];
             [PStr "Loading eval data..."];
             [PStr "steps_per_epoch ="; PInt steps]].
Proof.
  intros Hparse H. run_main H. rewrite Hparse in H.
  run_exec H.
  all: injection H as <-.
  all: do 2 eexists; split; [reflexivity | split; [eassumption | reflexivity]].
Qed.

Lemma printed_lines_witness :
  (scenario_world no_tensorboard _ [] (parse_args parser) = inr default_args
   /\ snd (run (scenario_world no_tensorboard) main) = Returned tt)
  /\ prints (fst (run (scenario_world no_tensorboard) main)) =
       [[PStr "Tensorboard is not available."];
        [PStr "Loading training data..."];
        [PStr "Loading eval data..."];
        [PStr "steps_per_epoch ="; PInt 438]].
Proof.
  assert (Esize : train_data_sizes
                    (fst (run (scenario_world no_tensorboard) main))
                  = [14041])
    by (vm_compute; reflexivity).
  assert (Esteps : steps_per_epoch 14041 32 1 = inr 438)
    by (vm_compute; reflexivity).
  assert (Ewriters : summary_writers
                       (fst (run (scenario_world no_tensorboard) main)) = [])
    by (vm_compute; reflexivity).
  split; [split; [reflexivity | vm_compute; reflexivity] |].
  destruct (printed_lines (scenario_world no_tensorboard) default_args
              (fst (run (scenario_world no_tensorboard) main)))
    as (n & steps & Hn & Hsteps & Hprints);
    [reflexivity | vm_compute; reflexivity |].
  rewrite Esize in Hn. injection Hn as <-.
  change (steps_per_epoch 14041 32 1 = inr steps) in Hsteps.
  rewrite Esteps in Hsteps. injection Hsteps as <-.
  rewrite Ewriters in Hprints. exact Hprints.
Defined.

(** ** Flags without effect *)

(** X13: [--weight_decay] is parsed and never used: the script is the
    same program for every value of it; so is it for every value of
    [--bert_config] when no [--bert_checkpoint] is given. *)
Theorem flags_without_effect (args : Args) :
  (forall x, script (with_weight_decay x args) = script args)
  /\ (bert_checkpoint args = None ->
      forall config, script (with_bert_config config args) = script args).
Proof.
  destruct args as [? ? ? ? ? ? ? ? ? ? ? ? ? ? ? ? checkpoint ?].
  split.
  - intros x. reflexivity.
  - cbn. intros -> config. reflexivity.
Qed.

(** ** Paths *)

Lemma append_assoc (a b c : string) :
  ((a ++ b) ++ c)%string = (a ++ (b ++ c))%string.
Proof.
  induction a as [| ch a IH]; cbn; [reflexivity | rewrite IH; reflexivity].
Qed.

Lemma ends_with_sep_app_sep (a : string) :
  ends_with_sep (a ++ "/")%string = true.
Proof.
  induction a as [| ch a IH]; [reflexivity |].
  cbn [append ends_with_sep].
  destruct (a ++ "/")%string eqn:E; [| exact IH].
  destruct a; discriminate E.
Qed.

(** X14: a trailing slash on the directory makes no difference to the
    joined path, an empty directory gives the bare file name, and
    the joined path always ends with the file name. *)
Theorem os_path_join_trailing_slash (a b : string) :
  (a <> "" -> ends_with_sep a = false ->
   os_path_join (a ++ "/") b = os_path_join a b)
  /\ os_path_join "" b = b
  /\ exists front, os_path_join a b = (front ++ b)%string.
Proof.
  unfold os_path_join.
  split; [| split].
  - intros Ha Hsep. destruct (String.prefix "/" b); [reflexivity |].
    rewrite ends_with_sep_app_sep, Hsep, orb_true_r.
    destruct (a =? "")%string eqn:E;
      [apply String.eqb_eq in E; contradiction |].
    cbn [orb]. apply append_assoc.
  - destruct (String.prefix "/" b); reflexivity.
  - destruct (String.prefix "/" b); [exists ""; reflexivity |].
    destruct ((a =? "")%string || ends_with_sep a).
    + exists a. reflexivity.
    + exists (a ++ "/")%string. symmetry. apply append_assoc.
Qed.
